(** * The EVM example resource server (scripts/evm-example/server-express.ts)

    A shallow embedding of the Express script: the JavaScript values the
    handlers read out of the upstream JSON bodies, the two route handlers,
    the try/catch of the /tee-demo handler and the start-up sequence, with
    the outbound [fetch] calls and the log lines recorded as a trace. *)

From Stdlib Require Import String Ascii List Bool NArith ZArith Lia DecimalString.
Import ListNotations.
Local Open Scope list_scope.
Local Open Scope string_scope.

Set Implicit Arguments.

(** ** JavaScript numbers

    The script never computes with a number: it writes the literals 72, 0
    and 4021, takes the [length] of an array and hands the token counts of
    the upstream body through.  What the language does with a number that
    arrives in a JSON body (its rendering in a template literal, its truth
    value under [||]) is kept as an interface, so that the handlers are
    modelled over every double and not only over the integers. *)

Class JsNumbers : Type := {
  number : Type;
  number_of_N : N -> number;
  number_to_string : number -> string;
  number_truthy : number -> bool
}.

(** Decimal rendering of a natural number, as a template literal renders
    an HTTP status. *)
Definition decimal (n : N) : string := NilZero.string_of_uint (N.to_uint n).

(** The integers as numbers: enough to run the handlers on concrete
    bodies. *)
Definition integer_to_string (z : Z) : string :=
  match z with
  | Z0 => "0"
  | Zpos p => decimal (Npos p)
  | Zneg p => "-" ++ decimal (Npos p)
  end.

Definition IntegerNumbers : JsNumbers := {|
  number := Z;
  number_of_N := Z.of_N;
  number_to_string := integer_to_string;
  number_truthy := fun z => negb (Z.eqb z 0)
|}.

Section Server.

Context {Num : JsNumbers}.

(** ** JavaScript values

    [response.json()] yields whatever the upstream sent: the interfaces
    [RedpillChatResponse] and [RedpillSignatureResponse] are erased at run
    time, so a parsed body is any JSON value.  [JsUndefined] is what a
    missing property reads as. *)

#[local] Unset Elimination Schemes.
Inductive JsValue : Type :=
| JsUndefined
| JsNull
| JsBool (b : bool)
| JsNumber (n : number)
| JsString (s : string)
| JsArray (items : list JsValue)
| JsObject (fields : list (string * JsValue)).
#[local] Set Elimination Schemes.

(** A thrown value: an [Error] object (of any subclass) or anything else. *)
Record JsError : Type := mkJsError { error_name : string; error_message : string }.

Inductive Thrown : Type :=
| ThrownError (e : JsError)
| ThrownValue (v : JsValue).

Definition new_Error (message : string) : Thrown :=
  ThrownError (mkJsError "Error" message).

Definition new_TypeError (message : string) : Thrown :=
  ThrownError (mkJsError "TypeError" message).

Definition is_nullish (v : JsValue) : bool :=
  match v with
  | JsUndefined | JsNull => true
  | _ => false
  end.

(** ToBoolean. *)
Definition truthy (v : JsValue) : bool :=
  match v with
  | JsUndefined | JsNull => false
  | JsBool b => b
  | JsNumber n => number_truthy n
  | JsString s => negb (String.eqb s "")
  | JsArray _ | JsObject _ => true
  end.

(** [a || b] and [a ?? b] on values already evaluated (the right operands
    in the script are literals). *)
Definition js_or (a b : JsValue) : JsValue := if truthy a then a else b.

Definition js_coalesce (a b : JsValue) : JsValue := if is_nullish a then b else a.

(** Own properties of a parsed object: the first binding of the key. *)
Fixpoint own_property (key : string) (fields : list (string * JsValue)) : option JsValue :=
  match fields with
  | [] => None
  | (k, v) :: rest => if String.eqb k key then Some v else own_property key rest
  end.

Inductive PropertyKey : Type :=
| PName (name : string)
| PIndex (i : nat).

Definition key_text (k : PropertyKey) : string :=
  match k with
  | PName name => name
  | PIndex i => decimal (N.of_nat i)
  end.

(** Property read [v.name] / [v[i]].  Reading from [undefined] or [null]
    throws a TypeError (the wording is V8's).  None of the names the script
    reads ([id], [model], [choices], [usage], [message], [content],
    [request_id], [signature], [payload], [cert_chain], [length]) is
    inherited from a prototype other than [length] of arrays and strings,
    so a name that is not an own property reads as [undefined].  The
    characters of a string stand for its UTF-16 code units, so [length]
    and indexing of a string are JavaScript's on strings whose code units
    are below 256. *)
Definition Get (v : JsValue) (k : PropertyKey) : Thrown + JsValue :=
  match v with
  | JsUndefined =>
      inl (new_TypeError ("Cannot read properties of undefined (reading '" ++ key_text k ++ "')"))
  | JsNull =>
      inl (new_TypeError ("Cannot read properties of null (reading '" ++ key_text k ++ "')"))
  | JsBool _ | JsNumber _ => inr JsUndefined
  | JsString s =>
      match k with
      | PName name =>
          if String.eqb name "length"
          then inr (JsNumber (number_of_N (N.of_nat (String.length s))))
          else inr JsUndefined
      | PIndex i =>
          match String.get i s with
          | Some c => inr (JsString (String c EmptyString))
          | None => inr JsUndefined
          end
      end
  | JsArray items =>
      match k with
      | PName name =>
          if String.eqb name "length"
          then inr (JsNumber (number_of_N (N.of_nat (List.length items))))
          else inr JsUndefined
      | PIndex i => inr (nth i items JsUndefined)
      end
  | JsObject fields =>
      match own_property (key_text k) fields with
      | Some x => inr x
      | None => inr JsUndefined
      end
  end.

(** ToString, as a template literal applies it.  An array is joined with
    commas, [null] and [undefined] elements rendering as nothing; a parsed
    object renders through [Object.prototype.toString] unless an own
    [toString] property (never callable in a JSON value) hides it, in
    which case no primitive can be obtained and a TypeError is thrown. *)
Fixpoint ToString (v : JsValue) : Thrown + string :=
  match v with
  | JsUndefined => inr "undefined"
  | JsNull => inr "null"
  | JsBool true => inr "true"
  | JsBool false => inr "false"
  | JsNumber n => inr (number_to_string n)
  | JsString s => inr s
  | JsArray items =>
      (fix join (l : list JsValue) : Thrown + string :=
         match l with
         | [] => inr ""
         | x :: rest =>
             match (if is_nullish x then inr "" else ToString x) with
             | inl e => inl e
             | inr sx =>
                 match rest with
                 | [] => inr sx
                 | _ :: _ =>
                     match join rest with
                     | inl e => inl e
                     | inr sr => inr (sx ++ "," ++ sr)
                     end
                 end
             end
         end) items
  | JsObject fields =>
      match own_property "toString" fields with
      | Some _ => inl (new_TypeError "Cannot convert object to primitive value")
      | None => inr "[object Object]"
      end
  end.

(** ** Effects: outbound requests and log lines

    What a handler does besides answering is recorded as a trace, in the
    order the script performs it. *)

Inductive LogLevel : Type := LevelDebug | LevelInfo | LevelWarn | LevelError.

Inductive LogArg : Type :=
| ArgValue (v : JsValue)
| ArgThrown (t : Thrown).

(** The arguments of one [fetch(url, init)] call.  [fetch_method] is
    [None] where the script passes no method (the platform then sends a
    GET); [fetch_body] is the value the script hands to [JSON.stringify]. *)
Record FetchRequest : Type := mkFetchRequest {
  fetch_url : string;
  fetch_method : option string;
  fetch_headers : list (string * string);
  fetch_body : option JsValue
}.

(** A [Response] as far as the script looks at it.  Reading the body is a
    promise of its own and may reject. *)
Record FetchResponse : Type := mkFetchResponse {
  status : N;
  statusText : string;
  text : Thrown + string;
  json : Thrown + JsValue
}.

(** [Response.ok] of the Fetch standard: the status is in 200..299. *)
Definition ok (r : FetchResponse) : bool :=
  (200 <=? status r)%N && (status r <=? 299)%N.

(** The network: what each outbound call resolves to or rejects with. *)
Definition Upstream : Type := FetchRequest -> Thrown + FetchResponse.

Inductive Event : Type :=
| Logged (level : LogLevel) (message : string) (args : list LogArg)
| Fetched (request : FetchRequest).

(** An action emits events and either throws or returns. *)
Definition Action (A : Type) : Type := list Event * (Thrown + A).

Definition ret {A} (a : A) : Action A := ([], inr a).

Definition throw {A} (t : Thrown) : Action A := ([], inl t).

Definition bind {A B} (c : Action A) (k : A -> Action B) : Action B :=
  match c with
  | (tr, inl t) => (tr, inl t)
  | (tr, inr a) => let (tr', r) := k a in ((tr ++ tr')%list, r)
  end.

(** [try { c } catch (error) { handler error }]. *)
Definition try_catch {A} (c : Action A) (handler : Thrown -> Action A) : Action A :=
  match c with
  | (tr, inl t) => let (tr', r) := handler t in ((tr ++ tr')%list, r)
  | (tr, inr a) => (tr, inr a)
  end.

(** A step that cannot emit anything: a property read, a conversion, the
    settling of a body promise. *)
Definition lift {A} (r : Thrown + A) : Action A := ([], r).

Definition log (level : LogLevel) (message : string) (args : list LogArg) : Action unit :=
  ([Logged level message args], inr tt).

Definition fetch (upstream : Upstream) (request : FetchRequest) : Action FetchResponse :=
  ([Fetched request], upstream request).

End Server.

Declare Scope action_scope.
Delimit Scope action_scope with action.
Notation "x <- c ;; k" := (bind c (fun x => k))
  (at level 61, c at next level, right associativity) : action_scope.
Notation "c ;; k" := (bind c (fun _ => k))
  (at level 61, right associativity) : action_scope.

Local Open Scope action_scope.

(** ** The script *)

Section Script.

Context {Num : JsNumbers}.

(** [process.env], as far as the script destructures it. *)
Record ProcessEnv : Type := mkProcessEnv {
  EVM_RECEIVING_ADDRESS : option string;
  PORT : option string;
  REDPILL_API_KEY : option string
}.

(** Truth value of an environment variable: unset and empty are falsy. *)
Definition env_truthy (x : option string) : bool :=
  match x with
  | Some s => negb (String.eqb s "")
  | None => false
  end.

(** An environment variable inside a template literal. *)
Definition env_text (x : option string) : string :=
  match x with
  | Some s => s
  | None => "undefined"
  end.

(** An inbound request; both handlers ignore it ([_]). *)
Record HttpRequest : Type := mkHttpRequest {
  request_path : string;
  request_headers : list (string * string)
}.

(** What a handler sends: [res.status(s).json(body)]; [res.json(body)]
    leaves the status at 200. *)
Record HttpResponse : Type := mkHttpResponse {
  response_status : N;
  response_body : JsValue
}.

Definition res_json (body : JsValue) : HttpResponse := mkHttpResponse 200 body.

Definition res_status_json (code : N) (body : JsValue) : HttpResponse :=
  mkHttpResponse code body.

(** *** /weather *)

Definition weather_body : JsValue :=
  JsObject [ ("temperature", JsNumber (number_of_N 72));
             ("conditions", JsString "sunny");
             ("message", JsString "Thanks for your payment!") ].

Definition weather_handler (_ : HttpRequest) : Action HttpResponse :=
  ret (res_json weather_body).

(** *** /tee-demo *)

Definition chat_url : string := "https://api.redpill.ai/v1/chat/completions".

Definition signature_url_prefix : string := "https://api.redpill.ai/v1/signature/".

Definition signature_url_suffix : string :=
  "?model=phala/qwen-2.5-7b-instruct&signing_algo=ecdsa".

Definition chat_request (key : option string) : FetchRequest :=
  mkFetchRequest chat_url (Some "POST")
    [ ("Authorization", "Bearer " ++ env_text key);
      ("Content-Type", "application/json") ]
    (Some (JsObject
       [ ("model", JsString "phala/qwen-2.5-7b-instruct");
         ("messages",
          JsArray [ JsObject [ ("role", JsString "user");
                               ("content", JsString "Hello") ] ]) ])).

Definition signature_request (key : option string) (signatureUrl : string) : FetchRequest :=
  mkFetchRequest signatureUrl None
    [ ("Authorization", "Bearer " ++ env_text key) ]
    None.

Definition configuration_error_body : JsValue :=
  JsObject [ ("error", JsString "Service configuration error");
             ("message", JsString "REDPILL_API_KEY not configured in environment") ].

(** [chatData.choices[0]?.message.content || ""]: the optional chain stops
    at a nullish first choice and nowhere else. *)
Definition chat_content (chatData : JsValue) : Action JsValue :=
  choices <- lift (Get chatData (PName "choices")) ;;
  first <- lift (Get choices (PIndex 0)) ;;
  content <-
    (if is_nullish first then ret JsUndefined
     else
       message <- lift (Get first (PName "message")) ;;
       lift (Get message (PName "content"))) ;;
  ret (js_or content (JsString "")).

(** [signatureData.cert_chain?.length ?? 0]. *)
Definition cert_chain_length (signatureData : JsValue) : Action JsValue :=
  cert_chain <- lift (Get signatureData (PName "cert_chain")) ;;
  len <-
    (if is_nullish cert_chain then ret JsUndefined
     else lift (Get cert_chain (PName "length"))) ;;
  ret (js_coalesce len (JsNumber (number_of_N 0))).

(** The object literal handed to [res.json] on success, its properties
    evaluated in source order. *)
Definition success_body (chatData signatureData : JsValue) : Action JsValue :=
  chat_id <- lift (Get chatData (PName "id")) ;;
  chat_model <- lift (Get chatData (PName "model")) ;;
  response <- chat_content chatData ;;
  usage <- lift (Get chatData (PName "usage")) ;;
  sig_id <- lift (Get signatureData (PName "request_id")) ;;
  signature <- lift (Get signatureData (PName "signature")) ;;
  payload <- lift (Get signatureData (PName "payload")) ;;
  chain_length <- cert_chain_length signatureData ;;
  ret (JsObject
    [ ("message", JsString "Thanks for your payment! Here's your TEE-verified AI response.");
      ("chat", JsObject [ ("request_id", chat_id);
                          ("model", chat_model);
                          ("response", response);
                          ("usage", usage) ]);
      ("tee_verification", JsObject [ ("request_id", sig_id);
                                      ("signature", signature);
                                      ("payload", payload);
                                      ("cert_chain_length", chain_length) ]) ]).

(** The body of the [try] block. *)
Definition tee_demo_try (key : option string) (upstream : Upstream) : Action HttpResponse :=
  if negb (env_truthy key) then
    log LevelError "REDPILL_API_KEY not configured" [] ;;
    ret (res_status_json 500 configuration_error_body)
  else
    log LevelInfo "Starting TEE verification demo" [] ;;
    (* Step 1 *)
    log LevelInfo "Calling Redpill AI chat completions API" [] ;;
    chatResponse <- fetch upstream (chat_request key) ;;
    (if negb (ok chatResponse) then
       errorText <- lift (text chatResponse) ;;
       log LevelError
         ("Chat API failed with status " ++ decimal (status chatResponse)
            ++ ": " ++ errorText) [] ;;
       throw (new_Error
         ("Chat API failed: " ++ decimal (status chatResponse)
            ++ " " ++ statusText chatResponse))
     else ret tt) ;;
    chatData <- lift (json chatResponse) ;;
    requestId <- lift (Get chatData (PName "id")) ;;
    id1 <- lift (ToString requestId) ;;
    log LevelInfo ("Chat completion successful, request_id: " ++ id1) [] ;;
    (* Step 2 *)
    id2 <- lift (ToString requestId) ;;
    log LevelInfo ("Fetching TEE signature for request_id: " ++ id2) [] ;;
    id3 <- lift (ToString requestId) ;;
    let signatureUrl := signature_url_prefix ++ id3 ++ signature_url_suffix in
    signatureResponse <- fetch upstream (signature_request key signatureUrl) ;;
    (if negb (ok signatureResponse) then
       errorText <- lift (text signatureResponse) ;;
       log LevelError
         ("Signature API failed with status " ++ decimal (status signatureResponse)
            ++ ": " ++ errorText) [] ;;
       throw (new_Error
         ("Signature API failed: " ++ decimal (status signatureResponse)
            ++ " " ++ statusText signatureResponse))
     else ret tt) ;;
    signatureData <- lift (json signatureResponse) ;;
    id4 <- lift (ToString requestId) ;;
    log LevelInfo ("TEE signature retrieved successfully for request_id: " ++ id4) [] ;;
    log LevelDebug "Signature response data:"
      [ArgValue (JsObject [("signatureData", signatureData)])] ;;
    body <- success_body chatData signatureData ;;
    ret (res_json body).

(** [error instanceof Error ? error.message : "Unknown error occurred"]. *)
Definition catch_message (error : Thrown) : string :=
  match error with
  | ThrownError e => error_message e
  | ThrownValue _ => "Unknown error occurred"
  end.

(** The [catch] block. *)
Definition tee_demo_catch (error : Thrown) : Action HttpResponse :=
  log LevelError "TEE demo endpoint failed:" [ArgThrown error] ;;
  ret (res_status_json 500
         (JsObject [ ("error", JsString "TEE verification failed");
                     ("message", JsString (catch_message error)) ])).

(** The inner action of /tee-demo.  [inl] in the result would be an
    exception that leaves the handler: no JSON answer, Express's own error
    page or an unhandled rejection instead. *)
Definition tee_demo_handler (env : ProcessEnv) (upstream : Upstream)
    (_ : HttpRequest) : Action HttpResponse :=
  try_catch (tee_demo_try (REDPILL_API_KEY env) upstream) tee_demo_catch.

End Script.

(** ** Start-up: the module body and [run] *)

(** What an Express middleware does with a request: hand over to the next
    handler, or answer itself. *)
Inductive MiddlewareResult {Num : JsNumbers} : Type :=
| CallNext
| Respond (r : HttpResponse).

Definition Middleware {Num : JsNumbers} : Type := HttpRequest -> MiddlewareResult.

(** The argument of [x402Exact]. *)
Record X402ExactArgs : Type := mkX402ExactArgs {
  arg_network : string;
  arg_asset : string;
  arg_payTo : option string;
  arg_amount : string
}.

(** The argument of [createMiddleware]. *)
Record MiddlewareArgs (Requirement : Type) : Type := mkMiddlewareArgs {
  facilitatorURL : string;
  accepts : list Requirement
}.

(** [app.get(path, middleware, handler)]. *)
Record Route {Num : JsNumbers} : Type := mkRoute {
  route_path : string;
  route_middleware : Middleware;
  route_handler : Upstream -> HttpRequest -> Action HttpResponse
}.

(** A request on a mounted route: the handler runs when, and only when,
    the middleware calls [next()]. *)
Definition serve {Num : JsNumbers} (r : Route) (upstream : Upstream)
    (request : HttpRequest) : Action HttpResponse :=
  match route_middleware r request with
  | CallNext => route_handler r upstream request
  | Respond answer => ret answer
  end.

Record Server {Num : JsNumbers} : Type := mkServer {
  server_routes : list Route;
  server_port : number
}.

Definition find_route {Num : JsNumbers} (s : Server) (path : string) : option Route :=
  find (fun r => String.eqb (route_path r) path) (server_routes s).

Section Startup.

Context {Num : JsNumbers}.

(** The imports that are not part of the script: [isAddress] of
    @faremeter/types/evm (applied to the raw environment entry, which may
    be undefined), [x402Exact] of @faremeter/info/evm, [createMiddleware]
    of @faremeter/middleware/express and the global [parseInt]. *)
Variable Requirement : Type.
Variable isAddress : option string -> bool.
Variable x402Exact : X402ExactArgs -> Thrown + Requirement.
Variable createMiddleware : MiddlewareArgs Requirement -> Thrown + Middleware.
Variable parseInt : string -> number.

(** The platform's side of [app.listen(port, callback)]: [inl] when no
    socket gets bound, either because Node refuses the port at once (a port
    that is NaN or outside 0..65535 throws ERR_SOCKET_BAD_PORT inside
    [run]) or because binding fails and the error event, which the script
    does not listen for, ends the process; [inr] when the server is
    listening. *)
Variable listen : number -> Thrown + unit.

Definition weather_route (middleware : Middleware) : Route :=
  mkRoute "/weather" middleware (fun _ request => weather_handler request).

Definition tee_demo_route (env : ProcessEnv) (middleware : Middleware) : Route :=
  mkRoute "/tee-demo" middleware (tee_demo_handler env).

(** The middleware both routes ask for: the argument object is evaluated
    first ([x402Exact] inside the [accepts] array), then [createMiddleware]
    is called and awaited. *)
Definition paid_middleware (network : string) (payTo : option string) : Action Middleware :=
  requirement <- lift (x402Exact (mkX402ExactArgs network "USDC" payTo "10000")) ;;
  lift (createMiddleware (mkMiddlewareArgs "http://localhost:4000" [requirement])).

(** [app.listen(port, () => logger.info(...))]: once the server listens
    the callback writes its line, the port rendered by the template
    literal. *)
Definition app_listen (port : number) : Action unit :=
  lift (listen port) ;;
  log LevelInfo ("Resource server listening on port " ++ number_to_string port) [].

(** [run]: mount /weather, mount /tee-demo, listen. *)
Definition run (env : ProcessEnv) (network : string) (payTo : option string)
    (port : number) : Action Server :=
  weather_middleware <- paid_middleware network payTo ;;
  tee_middleware <- paid_middleware network payTo ;;
  app_listen port ;;
  ret (mkServer [weather_route weather_middleware; tee_demo_route env tee_middleware] port).

(** [const port = PORT ? parseInt(PORT) : 4021]. *)
Definition port (env : ProcessEnv) : number :=
  if env_truthy (PORT env) then parseInt (env_text (PORT env)) else number_of_N 4021.

(** The module body.  [inl] is a throw at top level, or the failure to
    bind: the process ends and nothing is served. *)
Definition startup (env : ProcessEnv) : Action Server :=
  let payTo := EVM_RECEIVING_ADDRESS env in
  (if negb (isAddress payTo) then
     throw (new_Error
       "EVM_RECEIVING_ADDRESS must be set in your environment, and be a valid EVM address")
   else ret tt) ;;
  (if negb (env_truthy (REDPILL_API_KEY env)) then
     log LevelWarn
       "REDPILL_API_KEY not set in environment. The /tee-demo endpoint will not function." []
   else ret tt) ;;
  let network := "base-sepolia" in
  run env network payTo (port env).

End Startup.

(** ** Payment requirements *)

Definition new_ConfigurationError {Num : JsNumbers} (message : string) : Thrown :=
  ThrownError (mkJsError "ConfigurationError" message).

(** An integer amount in minor units, written in decimal. *)
Definition parse_amount (s : string) : option Z :=
  option_map Z.of_int (NilZero.int_of_string s).

Record PaymentRequirement : Type := mkPaymentRequirement {
  network : string;
  asset : string;
  payee : option string;
  amount : Z
}.

(** Modelled from the spec: the constructor of a payment requirement,
    [x402Exact] of @faremeter/info/evm, which the script imports and whose
    source is not part of it.  Section 4.1: it takes the network, the asset,
    the payee and the amount, fails with a ConfigurationError if the payee
    is not a valid address for the network or if the amount parses to a
    value that is 0 or less, and has no other effect.  Section 3 makes the
    amount an integer, so an amount that does not parse cannot be stored
    and fails as well. *)
Definition construct_requirement {Num : JsNumbers}
    (valid_address : string -> option string -> bool)
    (args : X402ExactArgs) : Thrown + PaymentRequirement :=
  if negb (valid_address (arg_network args) (arg_payTo args)) then
    inl (new_ConfigurationError "payee is not a valid address for the network")
  else
    match parse_amount (arg_amount args) with
    | None => inl (new_ConfigurationError "amount is not an integer")
    | Some n =>
        if (n <=? 0)%Z then inl (new_ConfigurationError "amount must be greater than 0")
        else inr (mkPaymentRequirement (arg_network args) (arg_asset args) (arg_payTo args) n)
    end.

(** ** Reading traces and bodies *)

(** The outbound calls of a trace, in order. *)
Fixpoint fetches {Num : JsNumbers} (trace : list Event) : list FetchRequest :=
  match trace with
  | [] => []
  | Fetched request :: rest => request :: fetches rest
  | Logged _ _ _ :: rest => fetches rest
  end.

(** [text] begins with [start]. *)
Fixpoint starts_with (start text : string) : bool :=
  match start with
  | EmptyString => true
  | String a start' =>
      match text with
      | EmptyString => false
      | String b text' => Ascii.eqb a b && starts_with start' text'
      end
  end.

Definition is_chat_call {Num : JsNumbers} (request : FetchRequest) : bool :=
  String.eqb (fetch_url request) chat_url.

Definition is_signature_call {Num : JsNumbers} (request : FetchRequest) : bool :=
  starts_with signature_url_prefix (fetch_url request).

(** How many times the trace calls the signature endpoint. *)
Definition signature_calls {Num : JsNumbers} (trace : list Event) : nat :=
  List.length (filter is_signature_call (fetches trace)).

(** A member of a body handed to [res.json], if [JSON.stringify] keeps
    it: a property whose value is [undefined] is left out.  The value is
    the one handed over; how it is then written (a non-finite number is
    written as null) is not modelled. *)
Definition json_member {Num : JsNumbers} (name : string) (body : JsValue) : option JsValue :=
  match body with
  | JsObject fields =>
      match own_property name fields with
      | Some JsUndefined => None
      | found => found
      end
  | _ => None
  end.

Fixpoint json_path {Num : JsNumbers} (path : list string) (body : JsValue) : option JsValue :=
  match path with
  | [] => Some body
  | name :: rest =>
      match json_member name body with
      | Some inner => json_path rest inner
      | None => None
      end
  end.

(** The error bodies of the script: exactly an [error] and a [message],
    both strings. *)
Definition error_body {Num : JsNumbers} (error message : string) : JsValue :=
  JsObject [ ("error", JsString error); ("message", JsString message) ].

(** The status a run answers with, if it answers. *)
Definition response_status_of_run {Num : JsNumbers} (run : Action HttpResponse) : option N :=
  match snd run with
  | inr response => Some (response_status response)
  | inl _ => None
  end.

(** Whether start-up ended in a throw. *)
Definition aborts {Num : JsNumbers} (run : Action Server) : bool :=
  match snd run with
  | inl _ => true
  | inr _ => false
  end.

(** The same environment with another upstream credential. *)
Definition with_key (env : ProcessEnv) (key : option string) : ProcessEnv :=
  mkProcessEnv (EVM_RECEIVING_ADDRESS env) (PORT env) key.

(** ** The runs of the [try] block

    Every run of the block is of one of four kinds, told apart by how far
    it got: stopped at the credential guard, thrown out of the chat stage
    (one outbound call), thrown out of the signature stage (two), or
    answered with the combined body. *)

Inductive TeeDemoRun {Num : JsNumbers} (key : option string) (upstream : Upstream)
  : Action HttpResponse -> Prop :=
| RunNotConfigured :
    env_truthy key = false ->
    TeeDemoRun key upstream
      ([Logged LevelError "REDPILL_API_KEY not configured" []],
       inr (res_status_json 500 configuration_error_body))
| RunChatStageThrows trace t :
    env_truthy key = true ->
    fetches trace = [chat_request key] ->
    TeeDemoRun key upstream (trace, inl t)
| RunSignatureStageThrows trace t chatResponse chatData requestId id :
    env_truthy key = true ->
    upstream (chat_request key) = inr chatResponse ->
    ok chatResponse = true ->
    json chatResponse = inr chatData ->
    Get chatData (PName "id") = inr requestId ->
    ToString requestId = inr id ->
    fetches trace =
      [chat_request key;
       signature_request key (signature_url_prefix ++ id ++ signature_url_suffix)] ->
    TeeDemoRun key upstream (trace, inl t)
| RunSucceeds trace body chatResponse chatData requestId id signatureResponse signatureData :
    env_truthy key = true ->
    upstream (chat_request key) = inr chatResponse ->
    ok chatResponse = true ->
    json chatResponse = inr chatData ->
    Get chatData (PName "id") = inr requestId ->
    ToString requestId = inr id ->
    upstream (signature_request key (signature_url_prefix ++ id ++ signature_url_suffix))
      = inr signatureResponse ->
    ok signatureResponse = true ->
    json signatureResponse = inr signatureData ->
    success_body chatData signatureData = ([], inr body) ->
    fetches trace =
      [chat_request key;
       signature_request key (signature_url_prefix ++ id ++ signature_url_suffix)] ->
    TeeDemoRun key upstream (trace, inr (res_json body)).

(** ** The declared shape of a chat choice

    [RedpillChatResponse] declares [choices] as an array of objects with a
    [message] that has a string [role] and a string [content].  Nothing
    checks a parsed body against it; these tests say when a value has the
    declared shape. *)

Definition conforms_message {Num : JsNumbers} (message : JsValue) : bool :=
  match message with
  | JsObject fields =>
      match own_property "role" fields, own_property "content" fields with
      | Some (JsString _), Some (JsString _) => true
      | _, _ => false
      end
  | _ => false
  end.

Definition conforms_choice {Num : JsNumbers} (choice : JsValue) : bool :=
  match choice with
  | JsObject fields =>
      match own_property "message" fields with
      | Some message => conforms_message message
      | None => false
      end
  | _ => false
  end.

(** ** The scenario of the specification's section 8: the two upstream
    bodies. *)

Definition scenario_chat_body {Num : JsNumbers} : JsValue :=
  JsObject
    [ ("id", JsString "req-1");
      ("model", JsString "m");
      ("choices",
       JsArray [ JsObject [ ("message",
                             JsObject [ ("role", JsString "assistant");
                                        ("content", JsString "hi") ]) ] ]) ].

Definition scenario_signature_body {Num : JsNumbers} : JsValue :=
  JsObject
    [ ("request_id", JsString "req-1");
      ("model", JsString "m");
      ("cert_chain", JsArray [JsString "a"; JsString "b"]) ].

(** ** Sample inputs

    Concrete environments, upstream behaviours and imports, over the
    integers, on which the statements below are exercised. *)

Module Sample.

#[local] Existing Instance IntegerNumbers.

Definition request : HttpRequest := mkHttpRequest "/tee-demo" [("X-PAYMENT", "proof")].

Definition payee_address : string := "0x1111111111111111111111111111111111111111".

Definition env_with_key : ProcessEnv :=
  mkProcessEnv (Some payee_address) None (Some "sk-sample").

Definition env_without_key : ProcessEnv :=
  mkProcessEnv (Some payee_address) (Some "8080") None.

Definition env_without_payee : ProcessEnv :=
  mkProcessEnv None None (Some "sk-sample").

Definition chat_body : JsValue := scenario_chat_body.

Definition signature_body : JsValue := scenario_signature_body.

(** A chat body without choices, and one whose first choice has a message
    without content. *)
Definition chat_body_no_choices : JsValue :=
  JsObject [ ("id", JsString "req-2"); ("model", JsString "m"); ("choices", JsArray []) ].

Definition chat_body_no_content : JsValue :=
  JsObject
    [ ("id", JsString "req-3");
      ("model", JsString "m");
      ("choices", JsArray [ JsObject [ ("message", JsObject [ ("role", JsString "assistant") ]) ] ]) ].

(** Bodies outside the declared shape: no [id], and a first choice
    without a [message]. *)
Definition chat_body_no_id : JsValue :=
  JsObject [ ("model", JsString "m"); ("choices", JsArray []) ].

Definition chat_body_no_message : JsValue :=
  JsObject [ ("id", JsString "req-4"); ("choices", JsArray [ JsObject [] ]) ].

(** A signature body without a certificate chain. *)
Definition signature_body_no_chain : JsValue :=
  JsObject [ ("request_id", JsString "req-1"); ("model", JsString "m") ].

Definition chat_response_ok : FetchResponse :=
  mkFetchResponse 200 "OK" (inr "") (inr chat_body).

Definition signature_response_ok : FetchResponse :=
  mkFetchResponse 200 "OK" (inr "") (inr signature_body).

Definition service_unavailable : FetchResponse :=
  mkFetchResponse 503 "Service Unavailable" (inr "upstream down")
    (inl (ThrownError (mkJsError "SyntaxError" "Unexpected token u in JSON at position 0"))).

(** Both endpoints answer 200. *)
Definition upstream_ok : Upstream :=
  fun r => if is_chat_call r then inr chat_response_ok else inr signature_response_ok.

(** Both endpoints answer 200, the chat endpoint with the given body. *)
Definition upstream_with_chat (body : JsValue) : Upstream :=
  fun r => if is_chat_call r then inr (mkFetchResponse 200 "OK" (inr "") (inr body))
           else inr signature_response_ok.

(** The signature endpoint answers 200 with a body without certificates. *)
Definition upstream_no_chain : Upstream :=
  fun r => if is_chat_call r then inr chat_response_ok
           else inr (mkFetchResponse 200 "OK" (inr "") (inr signature_body_no_chain)).

(** The answer of a run, or an empty 0 answer if the run threw. *)
Definition answer (run : Action HttpResponse) : HttpResponse :=
  match snd run with
  | inr response => response
  | inl _ => mkHttpResponse 0 JsUndefined
  end.

(** The chat endpoint answers 503. *)
Definition upstream_chat_down : Upstream :=
  fun r => if is_chat_call r then inr service_unavailable else inr signature_response_ok.

(** The signature endpoint answers 503. *)
Definition upstream_signature_down : Upstream :=
  fun r => if is_chat_call r then inr chat_response_ok else inr service_unavailable.

(** Stand-ins for the imports: an address is 0x and forty more characters,
    the requirement is the modelled constructor, the middleware lets a
    request through when it carries an X-PAYMENT header. *)
Definition isAddress (x : option string) : bool :=
  match x with
  | Some s => starts_with "0x" s && Nat.eqb (String.length s) 42
  | None => false
  end.

Definition x402Exact (args : X402ExactArgs) : Thrown + PaymentRequirement :=
  construct_requirement (fun _ => isAddress) args.

Definition paying (r : HttpRequest) : bool :=
  existsb (fun h => String.eqb (fst h) "X-PAYMENT") (request_headers r).

Definition payment_required : HttpResponse :=
  mkHttpResponse 402 (JsObject [("error", JsString "payment required")]).

Definition createMiddleware (_ : MiddlewareArgs PaymentRequirement) : Thrown + Middleware :=
  inr (fun r => if paying r then CallNext else Respond payment_required).

(** [listen] binds a port in 0..65535 and refuses any other. *)
Definition listen (port : Z) : Thrown + unit :=
  if (0 <=? port)%Z && (port <=? 65535)%Z then inr tt
  else inl (ThrownError
              (mkJsError "RangeError" "options.port should be >= 0 and < 65536"))%string.

(** [parseInt] on a decimal numeral; the samples pass it nothing else. *)
Definition parseInt (s : string) : number :=
  match parse_amount s with
  | Some z => z
  | None => 0%Z
  end.

End Sample.

(** ** More readings of a trace *)

Definition is_error_log {Num : JsNumbers} (e : Event) : bool :=
  match e with
  | Logged LevelError _ _ => true
  | _ => false
  end.

(** Whether the run wrote a line at error level. *)
Definition has_error_log {Num : JsNumbers} (trace : list Event) : bool :=
  existsb is_error_log trace.

(** The signature stage: the chat stage has produced [chatData] and the
    rendering [id] of its id, and the signature call resolves to
    [outcome].  What the stage throws, if it throws. *)
Definition signature_stage_throws {Num : JsNumbers} (outcome : Thrown + FetchResponse)
    (chatData : JsValue) (t : Thrown) : Prop :=
  match outcome with
  | inl rejection => t = rejection
  | inr signatureResponse =>
      if ok signatureResponse then
        match json signatureResponse with
        | inl rejection => t = rejection
        | inr signatureData => success_body chatData signatureData = ([], inl t)
        end
      else
        match text signatureResponse with
        | inl rejection => t = rejection
        | inr _ =>
            t = new_Error ("Signature API failed: " ++ decimal (status signatureResponse)
                             ++ " " ++ statusText signatureResponse)
        end
  end.

(** ** Sample failures

    Upstream behaviours in which a call rejects or a body cannot be used. *)

Module Faults.

#[local] Existing Instance IntegerNumbers.

Definition fetch_failed : Thrown := new_TypeError "fetch failed".

Definition bad_json : Thrown :=
  ThrownError (mkJsError "SyntaxError" "Unexpected end of JSON input").

(** A 200 whose body is not JSON. *)
Definition unparseable : FetchResponse :=
  mkFetchResponse 200 "OK" (inr "<html>") (inl bad_json).

(** No call gets through. *)
Definition upstream_offline : Upstream := fun _ => inl fetch_failed.

(** The chat call gets through, the signature call does not. *)
Definition upstream_signature_offline : Upstream :=
  fun r => if is_chat_call r then inr Sample.chat_response_ok else inl fetch_failed.

Definition upstream_chat_unparseable : Upstream :=
  fun r => if is_chat_call r then inr unparseable else inr Sample.signature_response_ok.

Definition upstream_signature_unparseable : Upstream :=
  fun r => if is_chat_call r then inr Sample.chat_response_ok else inr unparseable.

(** A chat body with an [id] and nothing to read a choice from. *)
Definition chat_body_without_choices : JsValue :=
  JsObject [ ("id", JsString "req-5"); ("model", JsString "m") ].

(** A chat body with token counts. *)
Definition chat_body_with_usage : JsValue :=
  JsObject
    [ ("id", JsString "req-6");
      ("model", JsString "m");
      ("choices",
       JsArray [ JsObject [ ("message",
                             JsObject [ ("role", JsString "assistant");
                                        ("content", JsString "hello") ]) ] ]);
      ("usage", JsObject [ ("prompt_tokens", JsNumber 9%Z);
                           ("completion_tokens", JsNumber 3%Z);
                           ("total_tokens", JsNumber 12%Z) ]) ].

(** What building a body returned, or undefined if building threw. *)
Definition built (run : Action JsValue) : JsValue :=
  match snd run with
  | inr body => body
  | inl _ => JsUndefined
  end.

(** An environment whose PORT is no port. *)
Definition env_bad_port : ProcessEnv :=
  mkProcessEnv (Some Sample.payee_address) (Some "99999") (Some "sk-sample").

(** A rejection that is not an [Error]. *)
Definition upstream_throws_text : Upstream := fun _ => inl (ThrownValue (JsString "boom")).

End Faults.

(** * Properties *)

Unset Implicit Arguments.

(** ** The value model on small inputs *)

Example to_string_of_array :
  ToString (JsArray [ JsNumber (7%Z : @number IntegerNumbers); JsNull;
                      JsArray [JsString "x"; JsBool true]; JsObject [] ])
  = inr "7,,x,true,[object Object]".
Proof. reflexivity. Qed.

Example to_string_of_shadowed_object :
  @ToString IntegerNumbers (JsObject [("toString", JsString "mine")])
  = inl (new_TypeError "Cannot convert object to primitive value").
Proof. reflexivity. Qed.

Example get_of_undefined_throws :
  @Get IntegerNumbers JsUndefined (PIndex 0)
  = inl (new_TypeError "Cannot read properties of undefined (reading '0')").
Proof. reflexivity. Qed.

Example get_past_the_end :
  @Get IntegerNumbers (JsArray [JsString "a"]) (PIndex 1) = inr JsUndefined.
Proof. reflexivity. Qed.

Example or_keeps_truthy_left :
  @js_or IntegerNumbers (JsString "hi") (JsString "") = JsString "hi"
  /\ js_or (@JsNumber IntegerNumbers 0%Z) (JsString "") = JsString ""
  /\ js_coalesce (@JsNumber IntegerNumbers 0%Z) (JsString "")
     = @JsNumber IntegerNumbers 0%Z
  /\ @js_coalesce IntegerNumbers JsNull (JsString "") = JsString "".
Proof. repeat split. Qed.

Example ok_is_the_2xx_range :
  @ok IntegerNumbers (mkFetchResponse 204 "No Content" (inr "") (inr JsNull)) = true
  /\ @ok IntegerNumbers (mkFetchResponse 199 "" (inr "") (inr JsNull)) = false
  /\ @ok IntegerNumbers (mkFetchResponse 300 "" (inr "") (inr JsNull)) = false.
Proof. repeat split. Qed.

Section Traces.

Context {Num : JsNumbers}.

Lemma fetches_app (a b : list Event) :
  fetches (a ++ b) = (fetches a ++ fetches b)%list.
Proof.
  induction a as [| [level message args | r] a IH]; simpl; congruence.
Qed.

Lemma in_fetches (r : FetchRequest) (trace : list Event) :
  In r (fetches trace) -> In (Fetched r) trace.
Proof.
  induction trace as [| [level message args | r'] trace IH]; simpl; intros H.
  - exact H.
  - right. exact (IH H).
  - destruct H as [-> | H]; [left; reflexivity | right; exact (IH H)].
Qed.

Lemma chat_request_is_not_signature_call (key : option string) :
  is_signature_call (chat_request key) = false.
Proof. reflexivity. Qed.

Lemma signature_request_is_signature_call (key : option string) (id : string) :
  is_signature_call
    (signature_request key (signature_url_prefix ++ id ++ signature_url_suffix)) = true.
Proof. reflexivity. Qed.

(** Building the success body reads properties and nothing else. *)
Lemma success_body_silent (chatData signatureData : JsValue) :
  exists r, success_body chatData signatureData = ([], r).
Proof.
  unfold success_body, chat_content, cert_chain_length, bind, lift, ret.
  repeat match goal with
  | |- context [match ?x with _ => _ end] =>
      lazymatch x with
      | context [match _ with _ => _ end] => fail
      | _ => destruct x eqn:?
      end
  end; eexists; reflexivity.
Qed.

End Traces.

(** One step of the case analysis of a run: split on the innermost
    undecided test, the success body taken as a whole. *)
Ltac run_step :=
  match goal with
  | |- context [match success_body ?a ?b with _ => _ end] =>
      let H := fresh "Hbody" in
      destruct (success_body_silent a b) as [[?|?] H]; rewrite H
  | |- context [match ?x with _ => _ end] =>
      lazymatch x with
      | context [match _ with _ => _ end] => fail
      | _ => destruct x eqn:?
      end
  end.

Ltac run_cases :=
  unfold tee_demo_try, bind, lift, log, ret, throw, fetch;
  repeat (run_step; cbn [fst snd app]);
  rewrite ?negb_true_iff, ?negb_false_iff in *.

Section TeeDemo.

Context {Num : JsNumbers}.

Lemma tee_demo_try_run (key : option string) (upstream : Upstream) :
  TeeDemoRun key upstream (tee_demo_try key upstream).
Proof.
  run_cases; try congruence;
    first [ solve [eapply RunNotConfigured; eauto]
          | solve [eapply RunChatStageThrows; eauto]
          | solve [eapply RunSignatureStageThrows; eauto]
          | solve [eapply RunSucceeds; eauto] ].
Qed.

(** The [catch] block adds a log line and no outbound call. *)
Lemma tee_demo_handler_fetches (env : ProcessEnv) (upstream : Upstream) (request : HttpRequest) :
  fetches (fst (tee_demo_handler env upstream request))
  = fetches (fst (tee_demo_try (REDPILL_API_KEY env) upstream)).
Proof.
  unfold tee_demo_handler, try_catch.
  destruct (tee_demo_try (REDPILL_API_KEY env) upstream) as [trace [t | response]]; simpl.
  - rewrite fetches_app. simpl. apply app_nil_r.
  - reflexivity.
Qed.

(** With the credential missing the block returns at its first statement. *)
Lemma tee_demo_try_not_configured (key : option string) (upstream : Upstream) :
  env_truthy key = false ->
  tee_demo_try key upstream
  = ([Logged LevelError "REDPILL_API_KEY not configured" []],
     inr (res_status_json 500 configuration_error_body)).
Proof.
  intros Hkey. unfold tee_demo_try. rewrite Hkey. reflexivity.
Qed.

(** What the block does on a chat response that is not ok. *)
Lemma tee_demo_try_chat_not_ok (key : option string) (upstream : Upstream)
    (chatResponse : FetchResponse) :
  env_truthy key = true ->
  upstream (chat_request key) = inr chatResponse ->
  ok chatResponse = false ->
  exists trace,
    fetches trace = [chat_request key] /\
    tee_demo_try key upstream
    = (trace,
       inl (match text chatResponse with
            | inl rejection => rejection
            | inr _ =>
                new_Error ("Chat API failed: " ++ decimal (status chatResponse)
                             ++ " " ++ statusText chatResponse)
            end)).
Proof.
  intros Hkey Hchat Hok.
  unfold tee_demo_try, bind, lift, log, ret, throw, fetch.
  rewrite Hkey, Hchat, Hok. cbn [negb fst snd app].
  destruct (text chatResponse) as [rejection | errorText];
    eexists; split; [| reflexivity | | reflexivity]; reflexivity.
Qed.

End TeeDemo.

Section TeeDemoClaims.

Context {Num : JsNumbers}.

(** When every stage succeeds the block answers with the combined body,
    after exactly the two calls. *)
Lemma tee_demo_try_success (key : option string) (upstream : Upstream)
    (chatResponse signatureResponse : FetchResponse)
    (chatData requestId signatureData body : JsValue) (id : string) :
  env_truthy key = true ->
  upstream (chat_request key) = inr chatResponse ->
  ok chatResponse = true ->
  json chatResponse = inr chatData ->
  Get chatData (PName "id") = inr requestId ->
  ToString requestId = inr id ->
  upstream (signature_request key (signature_url_prefix ++ id ++ signature_url_suffix))
    = inr signatureResponse ->
  ok signatureResponse = true ->
  json signatureResponse = inr signatureData ->
  success_body chatData signatureData = ([], inr body) ->
  exists trace,
    fetches trace =
      [chat_request key;
       signature_request key (signature_url_prefix ++ id ++ signature_url_suffix)] /\
    tee_demo_try key upstream = (trace, inr (res_json body)).
Proof.
  intros Hkey Hchat Hok Hjson Hid Hstr Hsig Hok' Hjson' Hbody.
  unfold tee_demo_try, bind, lift, log, ret, throw, fetch.
  rewrite Hkey, Hchat, Hok. cbn [negb fst snd app].
  rewrite Hjson, Hid, Hstr. cbn [fst snd app].
  rewrite Hsig, Hok'. cbn [negb fst snd app].
  rewrite Hjson', Hbody. cbn [fst snd app].
  eexists. split; [| reflexivity]. reflexivity.
Qed.

(** Every run of the handler ends in a JSON answer: a 500 with an [error]
    and a [message], or the 200 of a run in which both stages succeeded. *)
Lemma tee_demo_handler_outcome (env : ProcessEnv) (upstream : Upstream)
    (request : HttpRequest) :
  exists trace response,
    tee_demo_handler env upstream request = (trace, inr response) /\
    ((response_status response = 500%N /\
      exists error message, response_body response = error_body error message)
     \/
     (response_status response = 200%N /\
      exists chatResponse chatData requestId id signatureResponse signatureData,
        env_truthy (REDPILL_API_KEY env) = true /\
        upstream (chat_request (REDPILL_API_KEY env)) = inr chatResponse /\
        ok chatResponse = true /\
        json chatResponse = inr chatData /\
        Get chatData (PName "id") = inr requestId /\
        ToString requestId = inr id /\
        upstream (signature_request (REDPILL_API_KEY env)
                    (signature_url_prefix ++ id ++ signature_url_suffix))
          = inr signatureResponse /\
        ok signatureResponse = true /\
        json signatureResponse = inr signatureData /\
        success_body chatData signatureData = ([], inr (response_body response)))).
Proof.
  unfold tee_demo_handler.
  destruct (tee_demo_try_run (REDPILL_API_KEY env) upstream)
    as [Hkey | trace t Hkey Hf | trace t cr cd rid id Hkey H1 H2 H3 H4 H5 Hf
        | trace body cr cd rid id sr sd Hkey H1 H2 H3 H4 H5 H6 H7 H8 H9 Hf];
    cbn [try_catch tee_demo_catch bind log ret fst snd app].
  - do 2 eexists. split; [reflexivity |]. left. split; [reflexivity |].
    do 2 eexists. reflexivity.
  - do 2 eexists. split; [reflexivity |]. left. split; [reflexivity |].
    do 2 eexists. reflexivity.
  - do 2 eexists. split; [reflexivity |]. left. split; [reflexivity |].
    do 2 eexists. reflexivity.
  - do 2 eexists. split; [reflexivity |]. right. split; [reflexivity |].
    exists cr, cd, rid, id, sr, sd. cbn [res_json response_body]. tauto.
Qed.

(** The two computed members never throw part of the way through a trace
    and never come out undefined. *)
Lemma chat_content_outcome (chatData : JsValue) :
  (exists t, chat_content chatData = ([], inl t)) \/
  (exists response,
      chat_content chatData = ([], inr response) /\ response <> JsUndefined).
Proof.
  unfold chat_content, bind, lift, ret, js_or.
  repeat (run_step; cbn [fst snd app]);
    try (left; eexists; reflexivity);
    right; eexists; (split; [reflexivity |]); try discriminate;
    intros ->; discriminate.
Qed.

Lemma cert_chain_length_outcome (signatureData : JsValue) :
  (exists t, cert_chain_length signatureData = ([], inl t)) \/
  (exists len,
      cert_chain_length signatureData = ([], inr len) /\ len <> JsUndefined).
Proof.
  unfold cert_chain_length, bind, lift, ret, js_coalesce.
  repeat (run_step; cbn [fst snd app]);
    try (left; eexists; reflexivity);
    right; eexists; (split; [reflexivity |]); try discriminate;
    intros ->; discriminate.
Qed.

Lemma json_member_present (name : string) (fields : list (string * JsValue)) (v : JsValue) :
  own_property name fields = Some v ->
  v <> JsUndefined ->
  json_member name (JsObject fields) = Some v.
Proof.
  intros Hown Hdefined. unfold json_member. rewrite Hown.
  destruct v; try reflexivity. contradiction Hdefined. reflexivity.
Qed.

(** In a success body, chat.response and
    tee_verification.cert_chain_length are what the two extractions
    returned. *)
Lemma success_body_members (chatData signatureData body : JsValue) :
  success_body chatData signatureData = ([], inr body) ->
  exists response len,
    chat_content chatData = ([], inr response) /\
    cert_chain_length signatureData = ([], inr len) /\
    json_path ["chat"; "response"] body = Some response /\
    json_path ["tee_verification"; "cert_chain_length"] body = Some len.
Proof.
  unfold success_body, bind, lift, ret.
  destruct (chat_content_outcome chatData) as [[t Hc] | [response [Hc Hr]]];
    destruct (cert_chain_length_outcome signatureData) as [[t' Hl] | [len [Hl Hn]]];
    rewrite Hc, Hl;
    repeat (run_step; cbn [fst snd app]); intros H; try discriminate H.
  injection H as <-. exists response, len.
  split; [reflexivity |]. split; [reflexivity |].
  split.
  - cbn [json_path].
    erewrite json_member_present; [| reflexivity | discriminate].
    erewrite json_member_present; [| reflexivity | exact Hr].
    reflexivity.
  - cbn [json_path].
    erewrite json_member_present; [| reflexivity | discriminate].
    erewrite json_member_present; [| reflexivity | exact Hn].
    reflexivity.
Qed.

(** The signature URL is built from the rendering of whatever [id] the
    chat body has. *)
Lemma signature_url_of_request_id (key : option string) (upstream : Upstream)
    (chatResponse : FetchResponse) (chatData requestId : JsValue) (id : string) :
  env_truthy key = true ->
  upstream (chat_request key) = inr chatResponse ->
  ok chatResponse = true ->
  json chatResponse = inr chatData ->
  Get chatData (PName "id") = inr requestId ->
  ToString requestId = inr id ->
  fetches (fst (tee_demo_try key upstream))
  = [ chat_request key;
      signature_request key (signature_url_prefix ++ id ++ signature_url_suffix) ].
Proof.
  intros Hkey Hchat Hok Hjson Hid Hstr.
  unfold tee_demo_try, bind, lift, log, ret, throw, fetch.
  rewrite Hkey, Hchat, Hok. cbn [negb fst snd app].
  rewrite Hjson, Hid, Hstr. cbn [fst snd app].
  repeat (run_step; cbn [fst snd app]); reflexivity.
Qed.

End TeeDemoClaims.

(** ** The upstream calls of /tee-demo *)

(** C1.  If the chat call comes back with a status outside 200..299, the
    handler makes no call to the signature endpoint: the run consists of
    the chat call alone and ends in the 500 answer of the catch block.  In
    any run, a call to the signature endpoint is preceded in the trace by
    the chat call, and the chat call had returned a 2xx response. *)
Theorem signature_call_needs_successful_chat {Num : JsNumbers}
    (env : ProcessEnv) (upstream : Upstream) (request : HttpRequest) :
  (forall chatResponse,
      upstream (chat_request (REDPILL_API_KEY env)) = inr chatResponse ->
      ok chatResponse = false ->
      signature_calls (fst (tee_demo_handler env upstream request)) = 0 /\
      (env_truthy (REDPILL_API_KEY env) = true ->
       fetches (fst (tee_demo_handler env upstream request))
         = [chat_request (REDPILL_API_KEY env)] /\
       exists message,
         snd (tee_demo_handler env upstream request)
         = inr (res_status_json 500 (error_body "TEE verification failed" message))))
  /\
  (forall before r after,
      fst (tee_demo_handler env upstream request) = (before ++ Fetched r :: after)%list ->
      is_signature_call r = true ->
      exists chatResponse,
        upstream (chat_request (REDPILL_API_KEY env)) = inr chatResponse /\
        ok chatResponse = true /\
        In (Fetched (chat_request (REDPILL_API_KEY env))) before).
Proof.
  split.
  - intros chatResponse Hchat Hok.
    destruct (env_truthy (REDPILL_API_KEY env)) eqn:Hkey.
    + destruct (tee_demo_try_chat_not_ok _ upstream chatResponse Hkey Hchat Hok)
        as [trace [Hf Hrun]].
      assert (Hfetches : fetches (fst (tee_demo_handler env upstream request))
                         = [chat_request (REDPILL_API_KEY env)]).
      { rewrite tee_demo_handler_fetches, Hrun. exact Hf. }
      split.
      * unfold signature_calls. rewrite Hfetches. reflexivity.
      * intros _. split; [exact Hfetches |].
        unfold tee_demo_handler. rewrite Hrun.
        eexists. reflexivity.
    + split; [| discriminate].
      unfold signature_calls.
      rewrite tee_demo_handler_fetches, (tee_demo_try_not_configured _ upstream Hkey).
      reflexivity.
  - intros before r after Htrace Hsig.
    assert (Hf : fetches (fst (tee_demo_try (REDPILL_API_KEY env) upstream))
                 = (fetches before ++ r :: fetches after)%list).
    { rewrite <- (tee_demo_handler_fetches env upstream request), Htrace, fetches_app.
      reflexivity. }
    pose proof (in_fetches (chat_request (REDPILL_API_KEY env)) before) as Hin.
    remember (fetches before) as fb eqn:Efb. clear Efb.
    destruct (tee_demo_try_run (REDPILL_API_KEY env) upstream)
      as [Hkey | trace t Hkey Hfetch | trace t cr cd rid id Hkey H1 H2 H3 H4 H5 Hfetch
          | trace body cr cd rid id sr sd Hkey H1 H2 H3 H4 H5 H6 H7 H8 H9 Hfetch];
      cbn [fst fetches] in Hf; try rewrite Hfetch in Hf.
    + destruct fb; discriminate Hf.
    + destruct fb as [| x [| y fb]]; try discriminate Hf.
      injection Hf as <-. rewrite chat_request_is_not_signature_call in Hsig.
      discriminate Hsig.
    + destruct fb as [| x [| y fb]].
      * injection Hf as <- _. rewrite chat_request_is_not_signature_call in Hsig.
        discriminate Hsig.
      * injection Hf as <- _ _. exists cr. repeat split; auto. apply Hin. left. reflexivity.
      * destruct fb; discriminate Hf.
    + destruct fb as [| x [| y fb]].
      * injection Hf as <- _. rewrite chat_request_is_not_signature_call in Hsig.
        discriminate Hsig.
      * injection Hf as <- _ _. exists cr. repeat split; auto. apply Hin. left. reflexivity.
      * destruct fb; discriminate Hf.
Qed.

Lemma signature_call_needs_successful_chat_witness :
  (Sample.upstream_chat_down (chat_request (REDPILL_API_KEY Sample.env_with_key))
     = inr Sample.service_unavailable /\
   ok Sample.service_unavailable = false /\
   signature_calls
     (fst (tee_demo_handler Sample.env_with_key Sample.upstream_chat_down Sample.request)) = 0)
  /\
  (exists before r after,
     fst (tee_demo_handler Sample.env_with_key Sample.upstream_ok Sample.request)
       = (before ++ Fetched r :: after)%list /\
     is_signature_call r = true /\
     In (Fetched (chat_request (REDPILL_API_KEY Sample.env_with_key))) before).
Proof.
  split.
  - split; [reflexivity |]. split; [reflexivity |].
    apply (proj1 (signature_call_needs_successful_chat
                    Sample.env_with_key Sample.upstream_chat_down Sample.request)
                 Sample.service_unavailable); reflexivity.
  - eexists (firstn 5 (fst (tee_demo_handler Sample.env_with_key Sample.upstream_ok
                                             Sample.request))),
            (signature_request (Some "sk-sample")
               (signature_url_prefix ++ "req-1" ++ signature_url_suffix)),
            _.
    assert (Htrace : fst (tee_demo_handler Sample.env_with_key Sample.upstream_ok Sample.request)
                     = (firstn 5 (fst (tee_demo_handler Sample.env_with_key Sample.upstream_ok
                                                        Sample.request))
                        ++ Fetched (signature_request (Some "sk-sample")
                                      (signature_url_prefix ++ "req-1" ++ signature_url_suffix))
                        :: skipn 6 (fst (tee_demo_handler Sample.env_with_key Sample.upstream_ok
                                                          Sample.request)))%list)
      by reflexivity.
    split; [exact Htrace |]. split; [reflexivity |].
    destruct (proj2 (signature_call_needs_successful_chat
                       Sample.env_with_key Sample.upstream_ok Sample.request)
                    _ _ _ Htrace eq_refl) as [chatResponse [_ [_ Hin]]].
    exact Hin.
Defined.

(** C2.  With REDPILL_API_KEY unset (or empty) every request that reaches
    the handler is answered with status 500 and the configuration-error
    body, and the run contains no outbound call at all: its whole trace is
    the one error log line. *)
Theorem missing_key_answers_500_without_calls {Num : JsNumbers}
    (env : ProcessEnv) (upstream : Upstream) (request : HttpRequest) :
  env_truthy (REDPILL_API_KEY env) = false ->
  tee_demo_handler env upstream request
  = ([Logged LevelError "REDPILL_API_KEY not configured" []],
     inr (res_status_json 500
            (error_body "Service configuration error"
                        "REDPILL_API_KEY not configured in environment")))
  /\ fetches (fst (tee_demo_handler env upstream request)) = [].
Proof.
  intros Hkey.
  assert (Hrun : tee_demo_handler env upstream request
                 = ([Logged LevelError "REDPILL_API_KEY not configured" []],
                    inr (res_status_json 500
                           (error_body "Service configuration error"
                              "REDPILL_API_KEY not configured in environment")))).
  { unfold tee_demo_handler.
    rewrite (tee_demo_try_not_configured _ upstream Hkey). reflexivity. }
  split; [exact Hrun |]. rewrite Hrun. reflexivity.
Qed.

Lemma missing_key_answers_500_without_calls_witness :
  env_truthy (REDPILL_API_KEY Sample.env_without_key) = false /\
  response_status_of_run
    (tee_demo_handler Sample.env_without_key Sample.upstream_ok Sample.request) = Some 500%N /\
  fetches (fst (tee_demo_handler Sample.env_without_key Sample.upstream_ok Sample.request)) = [].
Proof.
  split; [reflexivity |].
  destruct (missing_key_answers_500_without_calls
              Sample.env_without_key Sample.upstream_ok Sample.request eq_refl)
    as [Hrun Hfetches].
  split; [rewrite Hrun; reflexivity | exact Hfetches].
Defined.



(** Outside the declared shape: a chat body without an [id] sends the
    signature call to the path segment undefined. *)
Example signature_url_without_id :
  map fetch_url
    (fetches (fst (tee_demo_handler Sample.env_with_key
                     (Sample.upstream_with_chat Sample.chat_body_no_id) Sample.request)))
  = [ "https://api.redpill.ai/v1/chat/completions";
      "https://api.redpill.ai/v1/signature/undefined?model=phala/qwen-2.5-7b-instruct&signing_algo=ecdsa" ].
Proof. reflexivity. Qed.

(** C4.  The scenario: the chat endpoint answers 2xx with the body
    {id: req-1, model: m, choices: [{message: {role: assistant, content:
    hi}}]} and the signature endpoint, asked for req-1, answers 2xx with
    {request_id: req-1, model: m, cert_chain: [a, b]}.  The handler then
    answers 200 with a body whose chat.response is the string hi and whose
    tee_verification.cert_chain_length is the number 2. *)
Theorem scenario_response {Num : JsNumbers}
    (env : ProcessEnv) (upstream : Upstream) (request : HttpRequest)
    (chatResponse signatureResponse : FetchResponse) :
  env_truthy (REDPILL_API_KEY env) = true ->
  upstream (chat_request (REDPILL_API_KEY env)) = inr chatResponse ->
  ok chatResponse = true ->
  json chatResponse = inr scenario_chat_body ->
  upstream (signature_request (REDPILL_API_KEY env)
              (signature_url_prefix ++ "req-1" ++ signature_url_suffix))
    = inr signatureResponse ->
  ok signatureResponse = true ->
  json signatureResponse = inr scenario_signature_body ->
  exists trace response,
    tee_demo_handler env upstream request = (trace, inr response) /\
    response_status response = 200%N /\
    json_path ["chat"; "response"] (response_body response) = Some (JsString "hi") /\
    json_path ["tee_verification"; "cert_chain_length"] (response_body response)
      = Some (JsNumber (number_of_N 2)).
Proof.
  intros Hkey Hchat Hok Hjson Hsig Hok' Hjson'.
  destruct (tee_demo_try_success (REDPILL_API_KEY env) upstream
              chatResponse signatureResponse
              scenario_chat_body (JsString "req-1") scenario_signature_body
              (match snd (success_body scenario_chat_body scenario_signature_body) with
               | inr body => body
               | inl _ => JsUndefined
               end)
              "req-1" Hkey Hchat Hok Hjson eq_refl eq_refl Hsig Hok' Hjson' eq_refl)
    as [trace [_ Hrun]].
  unfold tee_demo_handler. rewrite Hrun.
  do 2 eexists. split; [reflexivity |].
  repeat split; reflexivity.
Qed.

Lemma scenario_response_witness :
  env_truthy (REDPILL_API_KEY Sample.env_with_key) = true /\
  Sample.upstream_ok (chat_request (REDPILL_API_KEY Sample.env_with_key))
    = inr Sample.chat_response_ok /\
  ok Sample.chat_response_ok = true /\
  json Sample.chat_response_ok = inr scenario_chat_body /\
  Sample.upstream_ok
    (signature_request (REDPILL_API_KEY Sample.env_with_key)
       (signature_url_prefix ++ "req-1" ++ signature_url_suffix))
    = inr Sample.signature_response_ok /\
  ok Sample.signature_response_ok = true /\
  json Sample.signature_response_ok = inr scenario_signature_body /\
  exists trace response,
    tee_demo_handler Sample.env_with_key Sample.upstream_ok Sample.request
      = (trace, inr response) /\
    response_status response = 200%N /\
    json_path ["chat"; "response"] (response_body response) = Some (JsString "hi") /\
    json_path ["tee_verification"; "cert_chain_length"] (response_body response)
      = Some (@JsNumber IntegerNumbers 2%Z).
Proof.
  repeat (split; [reflexivity |]).
  exact (scenario_response Sample.env_with_key Sample.upstream_ok Sample.request
           Sample.chat_response_ok Sample.signature_response_ok
           eq_refl eq_refl eq_refl eq_refl eq_refl eq_refl eq_refl).
Defined.

(** ** The answers of /tee-demo *)

(** C6.  No run of the handler lets an exception out: each ends in a JSON
    answer.  The answer is either the 200 of a run in which the credential
    was set and both upstream calls returned 2xx, or a 500 whose body is an
    object with a string [error] and a string [message].  With the
    credential missing it is the configuration-error body; when anything
    is thrown inside the [try] block the [message] is the thrown error's
    own message (or the fixed text for a thrown non-error), never more of
    the error than that. *)
Theorem every_failure_answers_json {Num : JsNumbers}
    (env : ProcessEnv) (upstream : Upstream) (request : HttpRequest) :
  (exists trace response,
      tee_demo_handler env upstream request = (trace, inr response) /\
      ((response_status response = 500%N /\
        exists error message,
          response_body response = error_body error message /\
          json_member "error" (response_body response) = Some (JsString error) /\
          json_member "message" (response_body response) = Some (JsString message))
       \/
       (response_status response = 200%N /\
        exists chatResponse signatureResponse id,
          env_truthy (REDPILL_API_KEY env) = true /\
          upstream (chat_request (REDPILL_API_KEY env)) = inr chatResponse /\
          ok chatResponse = true /\
          upstream (signature_request (REDPILL_API_KEY env)
                      (signature_url_prefix ++ id ++ signature_url_suffix))
            = inr signatureResponse /\
          ok signatureResponse = true)))
  /\
  (env_truthy (REDPILL_API_KEY env) = false ->
   snd (tee_demo_handler env upstream request)
   = inr (res_status_json 500
            (error_body "Service configuration error"
                        "REDPILL_API_KEY not configured in environment")))
  /\
  (forall trace t,
      tee_demo_try (REDPILL_API_KEY env) upstream = (trace, inl t) ->
      tee_demo_handler env upstream request
      = ((trace ++ [Logged LevelError "TEE demo endpoint failed:" [ArgThrown t]])%list,
         inr (res_status_json 500
                (error_body "TEE verification failed" (catch_message t))))).
Proof.
  split; [| split].
  - destruct (tee_demo_handler_outcome env upstream request)
      as [trace [response [Hrun [[Hstatus [error [message Hbody]]] | [Hstatus Hok]]]]];
      exists trace, response; (split; [exact Hrun |]).
    + left. split; [exact Hstatus |]. exists error, message.
      rewrite Hbody. repeat split; reflexivity.
    + right. split; [exact Hstatus |].
      destruct Hok as [cr [cd [rid [id [sr [sd H]]]]]].
      exists cr, sr, id. tauto.
  - intros Hkey. unfold tee_demo_handler.
    rewrite (tee_demo_try_not_configured _ upstream Hkey). reflexivity.
  - intros trace t Hrun. unfold tee_demo_handler. rewrite Hrun. reflexivity.
Qed.

Lemma every_failure_answers_json_witness :
  (env_truthy (REDPILL_API_KEY Sample.env_without_key) = false /\
   snd (tee_demo_handler Sample.env_without_key Sample.upstream_ok Sample.request)
   = inr (res_status_json 500
            (error_body "Service configuration error"
                        "REDPILL_API_KEY not configured in environment")))
  /\
  (snd (tee_demo_try (REDPILL_API_KEY Sample.env_with_key) Sample.upstream_signature_down)
   = inl (new_Error "Signature API failed: 503 Service Unavailable") /\
   snd (tee_demo_handler Sample.env_with_key Sample.upstream_signature_down Sample.request)
   = inr (res_status_json 500
            (error_body "TEE verification failed"
                        "Signature API failed: 503 Service Unavailable"))).
Proof.
  split.
  - split; [reflexivity |].
    exact (proj1 (proj2 (every_failure_answers_json
                           Sample.env_without_key Sample.upstream_ok Sample.request))
                 eq_refl).
  - split; [reflexivity |].
    rewrite (proj2 (proj2 (every_failure_answers_json
                             Sample.env_with_key Sample.upstream_signature_down
                             Sample.request))
                   (fst (tee_demo_try (REDPILL_API_KEY Sample.env_with_key)
                                      Sample.upstream_signature_down))
                   (new_Error "Signature API failed: 503 Service Unavailable")
                   eq_refl).
    reflexivity.
Defined.

(** C10.  In a 200 answer, tee_verification.cert_chain_length is the
    number of elements of the [cert_chain] array of the signature body the
    upstream returned, and 0 when that body has no [cert_chain] (or a null
    one). *)
Theorem cert_chain_length_counts_chain {Num : JsNumbers}
    (env : ProcessEnv) (upstream : Upstream) (request : HttpRequest)
    (trace : list Event) (response : HttpResponse) :
  tee_demo_handler env upstream request = (trace, inr response) ->
  response_status response = 200%N ->
  exists id signatureResponse signatureData,
    upstream (signature_request (REDPILL_API_KEY env)
                (signature_url_prefix ++ id ++ signature_url_suffix))
      = inr signatureResponse /\
    json signatureResponse = inr signatureData /\
    (forall chain,
        Get signatureData (PName "cert_chain") = inr (JsArray chain) ->
        json_path ["tee_verification"; "cert_chain_length"] (response_body response)
        = Some (JsNumber (number_of_N (N.of_nat (List.length chain))))) /\
    (forall absent,
        Get signatureData (PName "cert_chain") = inr absent ->
        is_nullish absent = true ->
        json_path ["tee_verification"; "cert_chain_length"] (response_body response)
        = Some (JsNumber (number_of_N 0))).
Proof.
  intros Hrun Hstatus.
  destruct (tee_demo_handler_outcome env upstream request)
    as [trace' [response' [Hrun' [[Hstatus' _] | [_ Hok]]]]];
    rewrite Hrun in Hrun'; injection Hrun' as <- <-.
  - rewrite Hstatus in Hstatus'. discriminate Hstatus'.
  - destruct Hok as [cr [cd [rid [id [sr [sd [_ [_ [_ [_ [_ [_ [Hsig [_ [Hjson Hbody]]]]]]]]]]]]]]].
    destruct (success_body_members cd sd (response_body response) Hbody)
      as [content [len [_ [Hlen [_ Hpath]]]]].
    exists id, sr, sd. split; [exact Hsig |]. split; [exact Hjson |].
    rewrite Hpath. split.
    + intros chain Hchain.
      unfold cert_chain_length, bind, lift, ret in Hlen. rewrite Hchain in Hlen.
      cbn in Hlen. injection Hlen as <-. reflexivity.
    + intros absent Habsent Hnull.
      unfold cert_chain_length, bind, lift, ret in Hlen. rewrite Habsent in Hlen.
      cbn [fst snd app] in Hlen. rewrite Hnull in Hlen.
      cbn in Hlen. injection Hlen as <-. reflexivity.
Qed.

Lemma cert_chain_length_counts_chain_witness :
  (tee_demo_handler Sample.env_with_key Sample.upstream_ok Sample.request
   = (fst (tee_demo_handler Sample.env_with_key Sample.upstream_ok Sample.request),
      inr (Sample.answer
             (tee_demo_handler Sample.env_with_key Sample.upstream_ok Sample.request))) /\
   response_status
     (Sample.answer (tee_demo_handler Sample.env_with_key Sample.upstream_ok Sample.request))
   = 200%N /\
   json_path ["tee_verification"; "cert_chain_length"]
     (response_body
        (Sample.answer
           (tee_demo_handler Sample.env_with_key Sample.upstream_ok Sample.request)))
   = Some (@JsNumber IntegerNumbers 2%Z))
  /\
  (tee_demo_handler Sample.env_with_key Sample.upstream_no_chain Sample.request
   = (fst (tee_demo_handler Sample.env_with_key Sample.upstream_no_chain Sample.request),
      inr (Sample.answer
             (tee_demo_handler Sample.env_with_key Sample.upstream_no_chain
                               Sample.request))) /\
   response_status
     (Sample.answer
        (tee_demo_handler Sample.env_with_key Sample.upstream_no_chain Sample.request))
   = 200%N /\
   json_path ["tee_verification"; "cert_chain_length"]
     (response_body
        (Sample.answer
           (tee_demo_handler Sample.env_with_key Sample.upstream_no_chain Sample.request)))
   = Some (@JsNumber IntegerNumbers 0%Z)).
Proof.
  split.
  - split; [reflexivity |]. split; [reflexivity |].
    destruct (cert_chain_length_counts_chain
                Sample.env_with_key Sample.upstream_ok Sample.request _ _ eq_refl eq_refl)
      as [id [sr [sd [Hsig [Hjson [Hchain _]]]]]].
    injection Hsig as <-. injection Hjson as <-.
    exact (Hchain [JsString "a"; JsString "b"] eq_refl).
  - split; [reflexivity |]. split; [reflexivity |].
    destruct (cert_chain_length_counts_chain
                Sample.env_with_key Sample.upstream_no_chain Sample.request _ _
                eq_refl eq_refl)
      as [id [sr [sd [Hsig [Hjson [_ Habsent]]]]]].
    injection Hsig as <-. injection Hjson as <-.
    exact (Habsent JsUndefined eq_refl eq_refl).
Defined.

(** ** /weather *)

(** C9.  On /weather, whenever the payment middleware hands a request over
    to the handler, the answer is the 200 with the body {temperature: 72,
    conditions: sunny, message: Thanks for your payment!}, with no outbound
    call and no log line; any two requests let through get the same
    answer, whatever they carry and whatever the upstream would do. *)
Theorem weather_answer_is_constant {Num : JsNumbers}
    (middleware : Middleware) (upstream upstream' : Upstream)
    (request request' : HttpRequest) :
  middleware request = CallNext ->
  middleware request' = CallNext ->
  serve (weather_route middleware) upstream request
  = ([], inr (mkHttpResponse 200
                (JsObject [ ("temperature", JsNumber (number_of_N 72));
                            ("conditions", JsString "sunny");
                            ("message", JsString "Thanks for your payment!") ])))
  /\
  serve (weather_route middleware) upstream request
  = serve (weather_route middleware) upstream' request'.
Proof.
  intros Hnext Hnext'. unfold serve, weather_route. cbn [route_middleware route_handler].
  rewrite Hnext, Hnext'. split; reflexivity.
Qed.

Lemma weather_answer_is_constant_witness :
  Sample.paying Sample.request = true /\
  Sample.paying (mkHttpRequest "/weather" [("X-PAYMENT", "another proof"); ("Accept", "*/*")])
    = true /\
  serve (weather_route (fun r => if Sample.paying r then CallNext
                                 else Respond Sample.payment_required))
        Sample.upstream_ok Sample.request
  = serve (weather_route (fun r => if Sample.paying r then CallNext
                                   else Respond Sample.payment_required))
          Sample.upstream_chat_down
          (mkHttpRequest "/weather" [("X-PAYMENT", "another proof"); ("Accept", "*/*")]).
Proof.
  split; [reflexivity |]. split; [reflexivity |].
  exact (proj2 (weather_answer_is_constant
                  (fun r => if Sample.paying r then CallNext
                            else Respond Sample.payment_required)
                  Sample.upstream_ok Sample.upstream_chat_down
                  Sample.request
                  (mkHttpRequest "/weather" [("X-PAYMENT", "another proof"); ("Accept", "*/*")])
                  eq_refl eq_refl)).
Defined.

(** ** Start-up *)

(** The amount the script asks for passes the modelled constructor
    whenever the payee does. *)
Lemma script_amount_is_accepted {Num : JsNumbers}
    (valid_address : string -> option string -> bool)
    (network : string) (payTo : option string) :
  valid_address network payTo = true ->
  construct_requirement valid_address (mkX402ExactArgs network "USDC" payTo "10000")
  = inr (mkPaymentRequirement network "USDC" payTo 10000).
Proof.
  intros Hvalid. unfold construct_requirement. cbn [arg_network arg_payTo arg_amount arg_asset].
  rewrite Hvalid. reflexivity.
Qed.

(** C5.  A payee that [isAddress] rejects ends the module body in a throw
    whose message names EVM_RECEIVING_ADDRESS, before anything is logged,
    mounted or listened on.  The constructor of a payment requirement
    fails with a ConfigurationError when the payee is not a valid address
    for the network and when the amount parses to an integer that is 0 or
    negative; and a constructor that fails on the script's arguments ends
    the module body in that very throw. *)
Theorem invalid_payee_or_amount_is_rejected {Num : JsNumbers} :
  (forall (Requirement : Type) (isAddress : option string -> bool)
          (x402Exact : X402ExactArgs -> Thrown + Requirement)
          (createMiddleware : MiddlewareArgs Requirement -> Thrown + Middleware)
          (parseInt : string -> number) (listen : number -> Thrown + unit)
          (env : ProcessEnv),
      isAddress (EVM_RECEIVING_ADDRESS env) = false ->
      startup isAddress x402Exact createMiddleware parseInt listen env
      = ([], inl (new_Error
           "EVM_RECEIVING_ADDRESS must be set in your environment, and be a valid EVM address")))
  /\
  (forall (valid_address : string -> option string -> bool) (args : X402ExactArgs),
      valid_address (arg_network args) (arg_payTo args) = false ->
      exists message,
        construct_requirement valid_address args = inl (new_ConfigurationError message))
  /\
  (forall (valid_address : string -> option string -> bool) (args : X402ExactArgs) (n : Z),
      parse_amount (arg_amount args) = Some n ->
      (n <= 0)%Z ->
      exists message,
        construct_requirement valid_address args = inl (new_ConfigurationError message))
  /\
  (forall (Requirement : Type) (isAddress : option string -> bool)
          (x402Exact : X402ExactArgs -> Thrown + Requirement)
          (createMiddleware : MiddlewareArgs Requirement -> Thrown + Middleware)
          (parseInt : string -> number) (listen : number -> Thrown + unit)
          (env : ProcessEnv) (failure : Thrown),
      isAddress (EVM_RECEIVING_ADDRESS env) = true ->
      x402Exact (mkX402ExactArgs "base-sepolia" "USDC" (EVM_RECEIVING_ADDRESS env) "10000")
        = inl failure ->
      snd (startup isAddress x402Exact createMiddleware parseInt listen env) = inl failure).
Proof.
  split; [| split; [| split]].
  - intros Requirement isAddress x402Exact createMiddleware parseInt listen env Hpayee.
    unfold startup, bind, throw. rewrite Hpayee. reflexivity.
  - intros valid_address args Hpayee. unfold construct_requirement.
    rewrite Hpayee. eexists. reflexivity.
  - intros valid_address args n Hparse Hn. unfold construct_requirement.
    destruct (negb (valid_address (arg_network args) (arg_payTo args)));
      [eexists; reflexivity |].
    rewrite Hparse.
    destruct (Z.leb_spec n 0) as [_ | Hpos]; [eexists; reflexivity | lia].
  - intros Requirement isAddress x402Exact createMiddleware parseInt listen env failure
           Hpayee Hfails.
    unfold startup, run, app_listen, paid_middleware, bind, lift, log, ret, throw.
    rewrite Hpayee, Hfails. cbn [negb fst snd app].
    destruct (env_truthy (REDPILL_API_KEY env)); reflexivity.
Qed.

Lemma invalid_payee_or_amount_is_rejected_witness :
  (Sample.isAddress (EVM_RECEIVING_ADDRESS Sample.env_without_payee) = false /\
   aborts (startup Sample.isAddress Sample.x402Exact
             Sample.createMiddleware Sample.parseInt Sample.listen Sample.env_without_payee) = true)
  /\
  (Sample.isAddress (Some "not-an-address") = false /\
   exists message,
     Sample.x402Exact (mkX402ExactArgs "base-sepolia" "USDC" (Some "not-an-address") "10000")
     = inl (new_ConfigurationError message))
  /\
  (parse_amount "-5" = Some (-5)%Z /\ (-5 <= 0)%Z /\
   exists message,
     Sample.x402Exact
       (mkX402ExactArgs "base-sepolia" "USDC" (Some Sample.payee_address) "-5")
     = inl (new_ConfigurationError message))
  /\
  (Sample.isAddress (EVM_RECEIVING_ADDRESS Sample.env_with_key) = true /\
   snd (startup Sample.isAddress
          (fun _ : X402ExactArgs =>
             @inl Thrown PaymentRequirement (new_ConfigurationError "unknown asset"))
          Sample.createMiddleware Sample.parseInt Sample.listen Sample.env_with_key)
   = inl (new_ConfigurationError "unknown asset")).
Proof.
  split; [| split; [| split]].
  - split; [reflexivity |].
    rewrite (proj1 (@invalid_payee_or_amount_is_rejected IntegerNumbers)
               PaymentRequirement Sample.isAddress Sample.x402Exact
               Sample.createMiddleware Sample.parseInt Sample.listen Sample.env_without_payee eq_refl).
    reflexivity.
  - split; [reflexivity |].
    exact (proj1 (proj2 (@invalid_payee_or_amount_is_rejected IntegerNumbers))
             (fun _ => Sample.isAddress)
             (mkX402ExactArgs "base-sepolia" "USDC" (Some "not-an-address") "10000")
             eq_refl).
  - split; [reflexivity |]. split; [lia |].
    exact (proj1 (proj2 (proj2 (@invalid_payee_or_amount_is_rejected IntegerNumbers)))
             (fun _ => Sample.isAddress)
             (mkX402ExactArgs "base-sepolia" "USDC" (Some Sample.payee_address) "-5")
             (-5)%Z eq_refl ltac:(lia)).
  - split; [reflexivity |].
    exact (proj2 (proj2 (proj2 (@invalid_payee_or_amount_is_rejected IntegerNumbers)))
             PaymentRequirement Sample.isAddress
             (fun _ : X402ExactArgs =>
                @inl Thrown PaymentRequirement (new_ConfigurationError "unknown asset"))
             Sample.createMiddleware Sample.parseInt Sample.listen Sample.env_with_key
             (new_ConfigurationError "unknown asset") eq_refl eq_refl).
Defined.

(** C8.  Whether start-up ends in a throw does not depend on
    REDPILL_API_KEY.  With the credential missing, a valid payee, the two
    middlewares created and the port bound, the module body logs the
    warning, then the listening line, and ends with a server on which both
    /weather and /tee-demo are mounted; on that server /weather answers as
    always and /tee-demo answers every request let through with the
    configuration-error 500. *)
Theorem missing_key_only_warns {Num : JsNumbers}
    (Requirement : Type) (isAddress : option string -> bool)
    (x402Exact : X402ExactArgs -> Thrown + Requirement)
    (createMiddleware : MiddlewareArgs Requirement -> Thrown + Middleware)
    (parseInt : string -> number) (listen : number -> Thrown + unit)
    (env : ProcessEnv) :
  (forall key,
      aborts (startup isAddress x402Exact createMiddleware parseInt listen (with_key env key))
      = aborts (startup isAddress x402Exact createMiddleware parseInt listen env))
  /\
  (env_truthy (REDPILL_API_KEY env) = false ->
   isAddress (EVM_RECEIVING_ADDRESS env) = true ->
   forall requirement middleware,
     x402Exact (mkX402ExactArgs "base-sepolia" "USDC" (EVM_RECEIVING_ADDRESS env) "10000")
       = inr requirement ->
     createMiddleware (mkMiddlewareArgs "http://localhost:4000" [requirement])
       = inr middleware ->
     listen (port parseInt env) = inr tt ->
     exists server,
       startup isAddress x402Exact createMiddleware parseInt listen env
       = ([Logged LevelWarn
             "REDPILL_API_KEY not set in environment. The /tee-demo endpoint will not function."
             [];
           Logged LevelInfo
             ("Resource server listening on port " ++ number_to_string (port parseInt env))
             []],
          inr server) /\
       find_route server "/weather" = Some (weather_route middleware) /\
       find_route server "/tee-demo" = Some (tee_demo_route env middleware) /\
       forall upstream request,
         middleware request = CallNext ->
         snd (serve (weather_route middleware) upstream request)
           = inr (res_json weather_body) /\
         snd (serve (tee_demo_route env middleware) upstream request)
           = inr (res_status_json 500 configuration_error_body)).
Proof.
  split.
  - intros key.
    unfold aborts, startup, run, app_listen, paid_middleware, port,
      bind, lift, log, ret, throw.
    cbn [with_key EVM_RECEIVING_ADDRESS PORT REDPILL_API_KEY].
    destruct (isAddress (EVM_RECEIVING_ADDRESS env)); cbn [negb fst snd app];
      [| reflexivity].
    destruct (env_truthy key), (env_truthy (REDPILL_API_KEY env)); cbn [negb fst snd app];
      destruct (x402Exact _) as [t | requirement]; cbn [fst snd app]; try reflexivity;
      (destruct (createMiddleware _) as [t | middleware]; cbn [fst snd app];
       try reflexivity);
      destruct (listen _) as [t | []]; reflexivity.
  - intros Hkey Hpayee requirement middleware Hrequirement Hmiddleware Hlisten.
    unfold startup, run, app_listen, paid_middleware, bind, lift, log, ret, throw.
    rewrite Hpayee, Hkey, Hrequirement, Hmiddleware, Hlisten. cbn [negb fst snd app].
    eexists. split; [reflexivity |].
    split; [reflexivity |]. split; [reflexivity |].
    intros upstream request Hnext.
    unfold serve, weather_route, tee_demo_route, tee_demo_handler.
    cbn [route_middleware route_handler]. rewrite Hnext.
    rewrite (tee_demo_try_not_configured _ upstream Hkey). split; reflexivity.
Qed.

Lemma missing_key_only_warns_witness :
  env_truthy (REDPILL_API_KEY Sample.env_without_key) = false /\
  Sample.isAddress (EVM_RECEIVING_ADDRESS Sample.env_without_key) = true /\
  Sample.listen (port Sample.parseInt Sample.env_without_key) = inr tt /\
  aborts (startup Sample.isAddress Sample.x402Exact Sample.createMiddleware
            Sample.parseInt Sample.listen Sample.env_without_key) = false /\
  fst (startup Sample.isAddress Sample.x402Exact Sample.createMiddleware
         Sample.parseInt Sample.listen Sample.env_without_key)
  = [Logged LevelWarn
       "REDPILL_API_KEY not set in environment. The /tee-demo endpoint will not function."
       [];
     Logged LevelInfo "Resource server listening on port 8080" []].
Proof.
  split; [reflexivity |]. split; [reflexivity |]. split; [reflexivity |].
  destruct (proj2 (missing_key_only_warns PaymentRequirement
                     Sample.isAddress Sample.x402Exact Sample.createMiddleware
                     Sample.parseInt Sample.listen Sample.env_without_key)
                  eq_refl eq_refl
                  (mkPaymentRequirement "base-sepolia" "USDC" (Some Sample.payee_address) 10000)
                  (fun r => if Sample.paying r then CallNext
                            else Respond Sample.payment_required)
                  eq_refl eq_refl eq_refl)
    as [server [Hrun _]].
  rewrite Hrun. split; reflexivity.
Defined.

(** * Further properties of the script *)

Section TeeDemoStages.

Context {Num : JsNumbers}.

(** What the handler makes of a [try] block that threw, and of one that
    returned. *)
Lemma tee_demo_handler_catches (env : ProcessEnv) (upstream : Upstream)
    (request : HttpRequest) (trace : list Event) (t : Thrown) (calls : list FetchRequest) :
  tee_demo_try (REDPILL_API_KEY env) upstream = (trace, inl t) ->
  fetches trace = calls ->
  fetches (fst (tee_demo_handler env upstream request)) = calls /\
  snd (tee_demo_handler env upstream request)
  = inr (res_status_json 500 (error_body "TEE verification failed" (catch_message t))).
Proof.
  intros Hrun Hcalls. rewrite tee_demo_handler_fetches.
  unfold tee_demo_handler. rewrite Hrun. split; [exact Hcalls | reflexivity].
Qed.

Lemma tee_demo_handler_returns (env : ProcessEnv) (upstream : Upstream)
    (request : HttpRequest) (trace : list Event) (response : HttpResponse) :
  tee_demo_try (REDPILL_API_KEY env) upstream = (trace, inr response) ->
  tee_demo_handler env upstream request = (trace, inr response).
Proof.
  intros Hrun. unfold tee_demo_handler. rewrite Hrun. reflexivity.
Qed.

(** The chat call rejects. *)
Lemma tee_demo_try_chat_rejected (key : option string) (upstream : Upstream) (t : Thrown) :
  env_truthy key = true ->
  upstream (chat_request key) = inl t ->
  exists trace,
    fetches trace = [chat_request key] /\ tee_demo_try key upstream = (trace, inl t).
Proof.
  intros Hkey Hchat.
  unfold tee_demo_try, bind, lift, log, ret, throw, fetch.
  rewrite Hkey, Hchat. cbn [negb fst snd app].
  eexists. split; [| reflexivity]. reflexivity.
Qed.

(** The chat call returns 2xx and the block cannot get an id out of it:
    the body does not parse, has no properties to read, or carries an id
    that has no rendering. *)
Lemma tee_demo_try_chat_unusable (key : option string) (upstream : Upstream)
    (chatResponse : FetchResponse) (t : Thrown) :
  env_truthy key = true ->
  upstream (chat_request key) = inr chatResponse ->
  ok chatResponse = true ->
  (json chatResponse = inl t \/
   (exists chatData,
       json chatResponse = inr chatData /\
       (Get chatData (PName "id") = inl t \/
        exists requestId,
          Get chatData (PName "id") = inr requestId /\ ToString requestId = inl t))) ->
  exists trace,
    fetches trace = [chat_request key] /\ tee_demo_try key upstream = (trace, inl t).
Proof.
  intros Hkey Hchat Hok Hwhy.
  unfold tee_demo_try, bind, lift, log, ret, throw, fetch.
  rewrite Hkey, Hchat, Hok. cbn [negb fst snd app].
  destruct Hwhy as [Hjson | [chatData [Hjson [Hid | [requestId [Hid Hstr]]]]]].
  - rewrite Hjson. eexists. split; [| reflexivity]. reflexivity.
  - rewrite Hjson, Hid. eexists. split; [| reflexivity]. reflexivity.
  - rewrite Hjson, Hid, Hstr. eexists. split; [| reflexivity]. reflexivity.
Qed.

Lemma tee_demo_try_signature_stage (key : option string) (upstream : Upstream)
    (chatResponse : FetchResponse) (chatData requestId : JsValue) (id : string) (t : Thrown) :
  env_truthy key = true ->
  upstream (chat_request key) = inr chatResponse ->
  ok chatResponse = true ->
  json chatResponse = inr chatData ->
  Get chatData (PName "id") = inr requestId ->
  ToString requestId = inr id ->
  signature_stage_throws
    (upstream (signature_request key (signature_url_prefix ++ id ++ signature_url_suffix)))
    chatData t ->
  exists trace,
    fetches trace
    = [chat_request key;
       signature_request key (signature_url_prefix ++ id ++ signature_url_suffix)] /\
    tee_demo_try key upstream = (trace, inl t).
Proof.
  intros Hkey Hchat Hok Hjson Hid Hstr Hthrows.
  unfold tee_demo_try, bind, lift, log, ret, throw, fetch.
  rewrite Hkey, Hchat, Hok. cbn [negb fst snd app].
  rewrite Hjson, Hid, Hstr. cbn [fst snd app].
  unfold signature_stage_throws in Hthrows.
  destruct (upstream (signature_request key
              (signature_url_prefix ++ id ++ signature_url_suffix)))
    as [rejection | signatureResponse].
  - subst t. eexists. split; [| reflexivity]. reflexivity.
  - destruct (ok signatureResponse); cbn [negb fst snd app].
    + destruct (json signatureResponse) as [rejection | signatureData].
      * subst t. eexists. split; [| reflexivity]. reflexivity.
      * rewrite Hthrows. eexists. split; [| reflexivity]. reflexivity.
    + destruct (text signatureResponse) as [rejection | errorText]; subst t;
        eexists; (split; [| reflexivity]); reflexivity.
Qed.

End TeeDemoStages.

(** ** The outbound calls of a run *)

(** X1.  A run of the /tee-demo handler makes no outbound call when the
    credential is missing; with the credential set it always makes the
    chat call, first and once, followed by at most one call, which goes to
    the signature URL of some id.  There is no third call and no retry. *)
Theorem outbound_calls_are_chat_then_signature {Num : JsNumbers}
    (env : ProcessEnv) (upstream : Upstream) (request : HttpRequest) :
  (env_truthy (REDPILL_API_KEY env) = false /\
   fetches (fst (tee_demo_handler env upstream request)) = [])
  \/
  (env_truthy (REDPILL_API_KEY env) = true /\
   (fetches (fst (tee_demo_handler env upstream request))
      = [chat_request (REDPILL_API_KEY env)]
    \/
    exists id,
      fetches (fst (tee_demo_handler env upstream request))
      = [chat_request (REDPILL_API_KEY env);
         signature_request (REDPILL_API_KEY env)
           (signature_url_prefix ++ id ++ signature_url_suffix)])).
Proof.
  rewrite tee_demo_handler_fetches.
  destruct (tee_demo_try_run (REDPILL_API_KEY env) upstream)
    as [Hkey | trace t Hkey Hfetch | trace t cr cd rid id Hkey H1 H2 H3 H4 H5 Hfetch
        | trace body cr cd rid id sr sd Hkey H1 H2 H3 H4 H5 H6 H7 H8 H9 Hfetch];
    cbn [fst].
  - left. split; [exact Hkey | reflexivity].
  - right. split; [exact Hkey |]. left. exact Hfetch.
  - right. split; [exact Hkey |]. right. exists id. exact Hfetch.
  - right. split; [exact Hkey |]. right. exists id. exact Hfetch.
Qed.

(** X2.  Every outbound call of a run carries the configured, non-empty
    credential as its Authorization header, Bearer and the key.  The URL
    string handed to [fetch] is the chat URL, or the signature prefix, an
    id and the fixed query; the id is put in as it is, not encoded. *)
Theorem outbound_calls_carry_the_key {Num : JsNumbers}
    (env : ProcessEnv) (upstream : Upstream) (request : HttpRequest) (r : FetchRequest) :
  In r (fetches (fst (tee_demo_handler env upstream request))) ->
  exists key,
    REDPILL_API_KEY env = Some key /\
    key <> "" /\
    In ("Authorization", "Bearer " ++ key) (fetch_headers r) /\
    (fetch_url r = "https://api.redpill.ai/v1/chat/completions"
     \/
     exists id,
       fetch_url r
       = "https://api.redpill.ai/v1/signature/" ++ id
           ++ "?model=phala/qwen-2.5-7b-instruct&signing_algo=ecdsa").
Proof.
  intros Hin.
  assert (Hkey : env_truthy (REDPILL_API_KEY env) = true /\
                 (r = chat_request (REDPILL_API_KEY env) \/
                  exists id, r = signature_request (REDPILL_API_KEY env)
                                   (signature_url_prefix ++ id ++ signature_url_suffix))).
  { rewrite tee_demo_handler_fetches in Hin.
    destruct (tee_demo_try_run (REDPILL_API_KEY env) upstream)
      as [Hkey | trace t Hkey Hfetch | trace t cr cd rid id Hkey H1 H2 H3 H4 H5 Hfetch
          | trace body cr cd rid id sr sd Hkey H1 H2 H3 H4 H5 H6 H7 H8 H9 Hfetch];
      cbn [fst fetches] in Hin; try rewrite Hfetch in Hin.
    - contradiction Hin.
    - destruct Hin as [<- | []]. split; [exact Hkey | left; reflexivity].
    - destruct Hin as [<- | [<- | []]]; (split; [exact Hkey |]);
        [left; reflexivity | right; exists id; reflexivity].
    - destruct Hin as [<- | [<- | []]]; (split; [exact Hkey |]);
        [left; reflexivity | right; exists id; reflexivity]. }
  destruct Hkey as [Hkey Hr].
  destruct (REDPILL_API_KEY env) as [key |] eqn:Ekey; [| discriminate Hkey].
  exists key. split; [reflexivity |]. split.
  - intros ->. discriminate Hkey.
  - destruct Hr as [-> | [id ->]]; split.
    + left. reflexivity.
    + left. reflexivity.
    + left. reflexivity.
    + right. exists id. reflexivity.
Qed.

Lemma outbound_calls_carry_the_key_witness :
  In (@signature_request IntegerNumbers (Some "sk-sample")
        (signature_url_prefix ++ "req-1" ++ signature_url_suffix))
     (fetches (fst (tee_demo_handler Sample.env_with_key Sample.upstream_ok Sample.request)))
  /\
  exists key,
    REDPILL_API_KEY Sample.env_with_key = Some key /\
    key <> "" /\
    In ("Authorization", "Bearer " ++ key)
       (fetch_headers (@signature_request IntegerNumbers (Some "sk-sample")
                         (signature_url_prefix ++ "req-1" ++ signature_url_suffix))) /\
    (fetch_url (@signature_request IntegerNumbers (Some "sk-sample")
                  (signature_url_prefix ++ "req-1" ++ signature_url_suffix))
     = "https://api.redpill.ai/v1/chat/completions"
     \/
     exists id,
       fetch_url (@signature_request IntegerNumbers (Some "sk-sample")
                    (signature_url_prefix ++ "req-1" ++ signature_url_suffix))
       = "https://api.redpill.ai/v1/signature/" ++ id
           ++ "?model=phala/qwen-2.5-7b-instruct&signing_algo=ecdsa").
Proof.
  assert (Hin : In (@signature_request IntegerNumbers (Some "sk-sample")
                      (signature_url_prefix ++ "req-1" ++ signature_url_suffix))
                   (fetches (fst (tee_demo_handler Sample.env_with_key Sample.upstream_ok
                                                   Sample.request)))).
  { right. left. reflexivity. }
  split; [exact Hin |].
  exact (outbound_calls_carry_the_key Sample.env_with_key Sample.upstream_ok
           Sample.request _ Hin).
Defined.

(** The id goes into the URL string as it is: an id made of dot segments
    is handed to [fetch] unencoded, with the credential attached. *)
Example signature_url_with_dot_segments :
  map (fun r => (fetch_url r, fetch_headers r))
    (skipn 1
       (fetches
          (fst (tee_demo_handler Sample.env_with_key
                  (Sample.upstream_with_chat
                     (JsObject [("id", JsString "../../admin"); ("choices", JsArray [])]))
                  Sample.request))))
  = [ ("https://api.redpill.ai/v1/signature/../../admin?model=phala/qwen-2.5-7b-instruct&signing_algo=ecdsa",
       [("Authorization", "Bearer sk-sample")]) ].
Proof. reflexivity. Qed.

(** ** Failures, stage by stage *)

(** X3.  When the chat stage succeeded and the signature call comes back
    with a status outside 200..299, the run has made both calls and the
    answer is the 500 of the catch block; its message is Signature API
    failed, the status and the status text (or, if reading the error body
    rejected, that rejection's message).  Nothing of the chat result is
    returned. *)
Theorem signature_not_ok_answers_500 {Num : JsNumbers}
    (env : ProcessEnv) (upstream : Upstream) (request : HttpRequest)
    (chatResponse signatureResponse : FetchResponse)
    (chatData requestId : JsValue) (id : string) :
  env_truthy (REDPILL_API_KEY env) = true ->
  upstream (chat_request (REDPILL_API_KEY env)) = inr chatResponse ->
  ok chatResponse = true ->
  json chatResponse = inr chatData ->
  Get chatData (PName "id") = inr requestId ->
  ToString requestId = inr id ->
  upstream (signature_request (REDPILL_API_KEY env)
              (signature_url_prefix ++ id ++ signature_url_suffix))
    = inr signatureResponse ->
  ok signatureResponse = false ->
  fetches (fst (tee_demo_handler env upstream request))
  = [chat_request (REDPILL_API_KEY env);
     signature_request (REDPILL_API_KEY env)
       (signature_url_prefix ++ id ++ signature_url_suffix)]
  /\
  snd (tee_demo_handler env upstream request)
  = inr (res_status_json 500
           (error_body "TEE verification failed"
              (match text signatureResponse with
               | inl rejection => catch_message rejection
               | inr _ =>
                   "Signature API failed: " ++ decimal (status signatureResponse)
                     ++ " " ++ statusText signatureResponse
               end))).
Proof.
  intros Hkey Hchat Hok Hjson Hid Hstr Hsig Hok'.
  destruct (tee_demo_try_signature_stage (REDPILL_API_KEY env) upstream chatResponse
              chatData requestId id
              (match text signatureResponse with
               | inl rejection => rejection
               | inr _ =>
                   new_Error ("Signature API failed: " ++ decimal (status signatureResponse)
                                ++ " " ++ statusText signatureResponse)
               end)
              Hkey Hchat Hok Hjson Hid Hstr)
    as [trace [Hcalls Hrun]].
  { unfold signature_stage_throws. rewrite Hsig, Hok'.
    destruct (text signatureResponse); reflexivity. }
  destruct (tee_demo_handler_catches env upstream request trace _ _ Hrun Hcalls)
    as [Hfetches Hanswer].
  split; [exact Hfetches |]. rewrite Hanswer.
  destruct (text signatureResponse); reflexivity.
Qed.

Lemma signature_not_ok_answers_500_witness :
  env_truthy (REDPILL_API_KEY Sample.env_with_key) = true /\
  Sample.upstream_signature_down (chat_request (REDPILL_API_KEY Sample.env_with_key))
    = inr Sample.chat_response_ok /\
  ok Sample.chat_response_ok = true /\
  json Sample.chat_response_ok = inr Sample.chat_body /\
  Get Sample.chat_body (PName "id") = inr (JsString "req-1") /\
  Sample.upstream_signature_down
    (signature_request (REDPILL_API_KEY Sample.env_with_key)
       (signature_url_prefix ++ "req-1" ++ signature_url_suffix))
    = inr Sample.service_unavailable /\
  ok Sample.service_unavailable = false /\
  snd (tee_demo_handler Sample.env_with_key Sample.upstream_signature_down Sample.request)
  = inr (res_status_json 500
           (error_body "TEE verification failed"
                       "Signature API failed: 503 Service Unavailable")).
Proof.
  repeat (split; [reflexivity |]).
  exact (proj2 (signature_not_ok_answers_500
                  Sample.env_with_key Sample.upstream_signature_down Sample.request
                  Sample.chat_response_ok Sample.service_unavailable
                  Sample.chat_body (JsString "req-1") "req-1"
                  eq_refl eq_refl eq_refl eq_refl eq_refl eq_refl eq_refl eq_refl)).
Defined.

(** X4.  A rejected [fetch] is answered with a 500 that carries the
    rejection's message, or Unknown error occurred when what was thrown is
    not an Error.  If it is the chat call that rejects, that call is the
    only one made; if it is the signature call, both were made. *)
Theorem rejected_call_answers_500 {Num : JsNumbers}
    (env : ProcessEnv) (upstream : Upstream) (request : HttpRequest) (rejection : Thrown) :
  env_truthy (REDPILL_API_KEY env) = true ->
  (upstream (chat_request (REDPILL_API_KEY env)) = inl rejection ->
   fetches (fst (tee_demo_handler env upstream request))
     = [chat_request (REDPILL_API_KEY env)] /\
   snd (tee_demo_handler env upstream request)
     = inr (res_status_json 500
              (error_body "TEE verification failed" (catch_message rejection))))
  /\
  (forall chatResponse chatData requestId id,
      upstream (chat_request (REDPILL_API_KEY env)) = inr chatResponse ->
      ok chatResponse = true ->
      json chatResponse = inr chatData ->
      Get chatData (PName "id") = inr requestId ->
      ToString requestId = inr id ->
      upstream (signature_request (REDPILL_API_KEY env)
                  (signature_url_prefix ++ id ++ signature_url_suffix))
        = inl rejection ->
      fetches (fst (tee_demo_handler env upstream request))
        = [chat_request (REDPILL_API_KEY env);
           signature_request (REDPILL_API_KEY env)
             (signature_url_prefix ++ id ++ signature_url_suffix)] /\
      snd (tee_demo_handler env upstream request)
        = inr (res_status_json 500
                 (error_body "TEE verification failed" (catch_message rejection)))).
Proof.
  intros Hkey. split.
  - intros Hchat.
    destruct (tee_demo_try_chat_rejected (REDPILL_API_KEY env) upstream rejection Hkey Hchat)
      as [trace [Hcalls Hrun]].
    exact (tee_demo_handler_catches env upstream request trace _ _ Hrun Hcalls).
  - intros chatResponse chatData requestId id Hchat Hok Hjson Hid Hstr Hsig.
    destruct (tee_demo_try_signature_stage (REDPILL_API_KEY env) upstream chatResponse
                chatData requestId id rejection Hkey Hchat Hok Hjson Hid Hstr)
      as [trace [Hcalls Hrun]].
    { unfold signature_stage_throws. rewrite Hsig. reflexivity. }
    exact (tee_demo_handler_catches env upstream request trace _ _ Hrun Hcalls).
Qed.

Lemma rejected_call_answers_500_witness :
  (env_truthy (REDPILL_API_KEY Sample.env_with_key) = true /\
   Faults.upstream_offline (chat_request (REDPILL_API_KEY Sample.env_with_key))
     = inl Faults.fetch_failed /\
   snd (tee_demo_handler Sample.env_with_key Faults.upstream_offline Sample.request)
     = inr (res_status_json 500 (error_body "TEE verification failed" "fetch failed")))
  /\
  (Faults.upstream_throws_text (chat_request (REDPILL_API_KEY Sample.env_with_key))
     = inl (ThrownValue (JsString "boom")) /\
   snd (tee_demo_handler Sample.env_with_key Faults.upstream_throws_text Sample.request)
     = inr (res_status_json 500
              (error_body "TEE verification failed" "Unknown error occurred")))
  /\
  (Faults.upstream_signature_offline
     (signature_request (REDPILL_API_KEY Sample.env_with_key)
        (signature_url_prefix ++ "req-1" ++ signature_url_suffix))
     = inl Faults.fetch_failed /\
   map fetch_url
     (fetches (fst (tee_demo_handler Sample.env_with_key Faults.upstream_signature_offline
                      Sample.request)))
     = [chat_url; signature_url_prefix ++ "req-1" ++ signature_url_suffix]).
Proof.
  split; [| split].
  - split; [reflexivity |]. split; [reflexivity |].
    exact (proj2 (proj1 (rejected_call_answers_500
                           Sample.env_with_key Faults.upstream_offline Sample.request
                           Faults.fetch_failed eq_refl)
                        eq_refl)).
  - split; [reflexivity |].
    exact (proj2 (proj1 (rejected_call_answers_500
                           Sample.env_with_key Faults.upstream_throws_text Sample.request
                           (ThrownValue (JsString "boom")) eq_refl)
                        eq_refl)).
  - split; [reflexivity |].
    rewrite (proj1 (proj2 (rejected_call_answers_500
                             Sample.env_with_key Faults.upstream_signature_offline
                             Sample.request Faults.fetch_failed eq_refl)
                          Sample.chat_response_ok Sample.chat_body (JsString "req-1") "req-1"
                          eq_refl eq_refl eq_refl eq_refl eq_refl eq_refl)).
    reflexivity.
Defined.

(** X5.  A 2xx chat response the handler cannot take an id from (its body
    is not JSON, or is null so that reading [id] throws, or has an id with
    no string rendering) is answered with a 500 carrying the message of
    what was thrown, and the signature endpoint is not called. *)
Theorem unusable_chat_body_answers_500 {Num : JsNumbers}
    (env : ProcessEnv) (upstream : Upstream) (request : HttpRequest)
    (chatResponse : FetchResponse) (t : Thrown) :
  env_truthy (REDPILL_API_KEY env) = true ->
  upstream (chat_request (REDPILL_API_KEY env)) = inr chatResponse ->
  ok chatResponse = true ->
  (json chatResponse = inl t \/
   (exists chatData,
       json chatResponse = inr chatData /\
       (Get chatData (PName "id") = inl t \/
        exists requestId,
          Get chatData (PName "id") = inr requestId /\ ToString requestId = inl t))) ->
  fetches (fst (tee_demo_handler env upstream request))
    = [chat_request (REDPILL_API_KEY env)] /\
  snd (tee_demo_handler env upstream request)
    = inr (res_status_json 500 (error_body "TEE verification failed" (catch_message t))).
Proof.
  intros Hkey Hchat Hok Hwhy.
  destruct (tee_demo_try_chat_unusable (REDPILL_API_KEY env) upstream chatResponse t
              Hkey Hchat Hok Hwhy)
    as [trace [Hcalls Hrun]].
  exact (tee_demo_handler_catches env upstream request trace _ _ Hrun Hcalls).
Qed.

Lemma unusable_chat_body_answers_500_witness :
  (env_truthy (REDPILL_API_KEY Sample.env_with_key) = true /\
   Faults.upstream_chat_unparseable (chat_request (REDPILL_API_KEY Sample.env_with_key))
     = inr Faults.unparseable /\
   ok Faults.unparseable = true /\
   json Faults.unparseable = inl Faults.bad_json /\
   fetches (fst (tee_demo_handler Sample.env_with_key Faults.upstream_chat_unparseable
                   Sample.request))
     = [chat_request (REDPILL_API_KEY Sample.env_with_key)] /\
   snd (tee_demo_handler Sample.env_with_key Faults.upstream_chat_unparseable Sample.request)
     = inr (res_status_json 500
              (error_body "TEE verification failed" "Unexpected end of JSON input")))
  /\
  (Sample.upstream_with_chat JsNull (chat_request (REDPILL_API_KEY Sample.env_with_key))
     = inr (mkFetchResponse 200 "OK" (inr "") (inr JsNull)) /\
   Get (@JsNull IntegerNumbers) (PName "id")
     = inl (new_TypeError "Cannot read properties of null (reading 'id')") /\
   snd (tee_demo_handler Sample.env_with_key (Sample.upstream_with_chat JsNull)
          Sample.request)
     = inr (res_status_json 500
              (error_body "TEE verification failed"
                          "Cannot read properties of null (reading 'id')"))).
Proof.
  split.
  - repeat (split; [reflexivity |]).
    exact (proj2 (unusable_chat_body_answers_500
                    Sample.env_with_key Faults.upstream_chat_unparseable Sample.request
                    Faults.unparseable Faults.bad_json eq_refl eq_refl eq_refl
                    (or_introl eq_refl))).
  - repeat (split; [reflexivity |]).
    exact (proj2 (unusable_chat_body_answers_500
                    Sample.env_with_key (Sample.upstream_with_chat JsNull) Sample.request
                    (mkFetchResponse 200 "OK" (inr "") (inr JsNull))
                    (new_TypeError "Cannot read properties of null (reading 'id')")
                    eq_refl eq_refl eq_refl
                    (or_intror (ex_intro _ JsNull (conj eq_refl (or_introl eq_refl)))))).
Defined.

(** X6.  After a successful chat stage, a 2xx signature response whose
    body is not JSON, or from which the answer cannot be built (building
    it throws), is answered with a 500 carrying the message of what was
    thrown; both calls have been made by then. *)
Theorem unusable_signature_body_answers_500 {Num : JsNumbers}
    (env : ProcessEnv) (upstream : Upstream) (request : HttpRequest)
    (chatResponse signatureResponse : FetchResponse)
    (chatData requestId : JsValue) (id : string) (t : Thrown) :
  env_truthy (REDPILL_API_KEY env) = true ->
  upstream (chat_request (REDPILL_API_KEY env)) = inr chatResponse ->
  ok chatResponse = true ->
  json chatResponse = inr chatData ->
  Get chatData (PName "id") = inr requestId ->
  ToString requestId = inr id ->
  upstream (signature_request (REDPILL_API_KEY env)
              (signature_url_prefix ++ id ++ signature_url_suffix))
    = inr signatureResponse ->
  ok signatureResponse = true ->
  (json signatureResponse = inl t \/
   exists signatureData,
     json signatureResponse = inr signatureData /\
     success_body chatData signatureData = ([], inl t)) ->
  fetches (fst (tee_demo_handler env upstream request))
    = [chat_request (REDPILL_API_KEY env);
       signature_request (REDPILL_API_KEY env)
         (signature_url_prefix ++ id ++ signature_url_suffix)] /\
  snd (tee_demo_handler env upstream request)
    = inr (res_status_json 500 (error_body "TEE verification failed" (catch_message t))).
Proof.
  intros Hkey Hchat Hok Hjson Hid Hstr Hsig Hok' Hwhy.
  destruct (tee_demo_try_signature_stage (REDPILL_API_KEY env) upstream chatResponse
              chatData requestId id t Hkey Hchat Hok Hjson Hid Hstr)
    as [trace [Hcalls Hrun]].
  { unfold signature_stage_throws. rewrite Hsig, Hok'.
    destruct Hwhy as [Hjson' | [signatureData [Hjson' Hbody]]]; rewrite Hjson';
      [reflexivity | exact Hbody]. }
  exact (tee_demo_handler_catches env upstream request trace _ _ Hrun Hcalls).
Qed.

Lemma unusable_signature_body_answers_500_witness :
  env_truthy (REDPILL_API_KEY Sample.env_with_key) = true /\
  Faults.upstream_signature_unparseable (chat_request (REDPILL_API_KEY Sample.env_with_key))
    = inr Sample.chat_response_ok /\
  ok Sample.chat_response_ok = true /\
  json Sample.chat_response_ok = inr Sample.chat_body /\
  Get Sample.chat_body (PName "id") = inr (JsString "req-1") /\
  Faults.upstream_signature_unparseable
    (signature_request (REDPILL_API_KEY Sample.env_with_key)
       (signature_url_prefix ++ "req-1" ++ signature_url_suffix))
    = inr Faults.unparseable /\
  ok Faults.unparseable = true /\
  json Faults.unparseable = inl Faults.bad_json /\
  snd (tee_demo_handler Sample.env_with_key Faults.upstream_signature_unparseable
         Sample.request)
    = inr (res_status_json 500
             (error_body "TEE verification failed" "Unexpected end of JSON input")).
Proof.
  repeat (split; [reflexivity |]).
  exact (proj2 (unusable_signature_body_answers_500
                  Sample.env_with_key Faults.upstream_signature_unparseable Sample.request
                  Sample.chat_response_ok Faults.unparseable
                  Sample.chat_body (JsString "req-1") "req-1" Faults.bad_json
                  eq_refl eq_refl eq_refl eq_refl eq_refl eq_refl eq_refl eq_refl
                  (or_introl eq_refl))).
Defined.

(** ** The 200 answer *)

Section SuccessBody.

Context {Num : JsNumbers}.

Lemma Get_of_nullish (v : JsValue) (k : PropertyKey) :
  is_nullish v = true -> exists t, Get v k = inl t.
Proof.
  destruct v; try discriminate; intros _; eexists; reflexivity.
Qed.

Lemma Get_of_value (v : JsValue) (k : PropertyKey) :
  is_nullish v = false -> exists x, Get v k = inr x.
Proof.
  destruct v as [| | b | n | s | items | fields]; try discriminate; intros _;
    cbn [Get]; try (eexists; reflexivity).
  - destruct k as [name | i]; [destruct (String.eqb name "length") |
                               destruct (String.get i s)]; eexists; reflexivity.
  - destruct k as [name | i]; [destruct (String.eqb name "length") |];
      eexists; reflexivity.
  - destruct (own_property (key_text k) fields); eexists; reflexivity.
Qed.

Lemma Get_value_is_not_nullish (v x : JsValue) (k : PropertyKey) :
  Get v k = inr x -> is_nullish v = false.
Proof.
  destruct v; try reflexivity; discriminate.
Qed.

(** The success body, member by member. *)
Lemma success_body_shape (chatData signatureData body : JsValue) :
  success_body chatData signatureData = ([], inr body) ->
  exists chat_id chat_model response usage sig_id signature payload chain_length,
    Get chatData (PName "id") = inr chat_id /\
    Get chatData (PName "model") = inr chat_model /\
    chat_content chatData = ([], inr response) /\
    Get chatData (PName "usage") = inr usage /\
    Get signatureData (PName "request_id") = inr sig_id /\
    Get signatureData (PName "signature") = inr signature /\
    Get signatureData (PName "payload") = inr payload /\
    cert_chain_length signatureData = ([], inr chain_length) /\
    body = JsObject
      [ ("message", JsString "Thanks for your payment! Here's your TEE-verified AI response.");
        ("chat", JsObject [ ("request_id", chat_id);
                            ("model", chat_model);
                            ("response", response);
                            ("usage", usage) ]);
        ("tee_verification", JsObject [ ("request_id", sig_id);
                                        ("signature", signature);
                                        ("payload", payload);
                                        ("cert_chain_length", chain_length) ]) ].
Proof.
  unfold success_body, bind, lift, ret.
  destruct (chat_content_outcome chatData) as [[t Hc] | [response [Hc Hr]]];
    destruct (cert_chain_length_outcome signatureData) as [[t' Hl] | [len [Hl Hn]]];
    rewrite Hc, Hl;
    repeat (run_step; cbn [fst snd app]); intros H; try discriminate H.
  injection H as <-.
  do 8 eexists. repeat (split; [reflexivity |]). reflexivity.
Qed.

(** A member handed through: present in the answer exactly when the
    upstream object has it, and then the same value. *)
Lemma forwarded_member (fields : list (string * JsValue)) (name : string) (v : JsValue) :
  Get (JsObject fields) (PName name) = inr v ->
  match v with JsUndefined => None | _ => Some v end
  = json_member name (JsObject fields).
Proof.
  cbn [Get key_text json_member].
  destruct (own_property name fields) as [x |]; intros H; injection H as <-;
    [destruct x |]; reflexivity.
Qed.

End SuccessBody.

(** X7.  The handler answers 200 exactly when the credential is set, both
    upstream calls return 2xx with bodies that parse, the chat id has a
    string rendering and the combined body can be built; the answer's body
    is then that combined body. *)
Theorem answers_200_exactly_when {Num : JsNumbers}
    (env : ProcessEnv) (upstream : Upstream) (request : HttpRequest) (body : JsValue) :
  snd (tee_demo_handler env upstream request) = inr (res_json body)
  <->
  exists chatResponse chatData requestId id signatureResponse signatureData,
    env_truthy (REDPILL_API_KEY env) = true /\
    upstream (chat_request (REDPILL_API_KEY env)) = inr chatResponse /\
    ok chatResponse = true /\
    json chatResponse = inr chatData /\
    Get chatData (PName "id") = inr requestId /\
    ToString requestId = inr id /\
    upstream (signature_request (REDPILL_API_KEY env)
                (signature_url_prefix ++ id ++ signature_url_suffix))
      = inr signatureResponse /\
    ok signatureResponse = true /\
    json signatureResponse = inr signatureData /\
    success_body chatData signatureData = ([], inr body).
Proof.
  split.
  - intros Hanswer.
    destruct (tee_demo_handler_outcome env upstream request)
      as [trace [response [Hrun [[Hstatus _] | [_ Hok]]]]];
      rewrite Hrun in Hanswer; cbn [snd] in Hanswer; injection Hanswer as ->.
    + discriminate Hstatus.
    + destruct Hok as [cr [cd [rid [id [sr [sd H]]]]]].
      exists cr, cd, rid, id, sr, sd. exact H.
  - intros [cr [cd [rid [id [sr [sd [Hkey [H1 [H2 [H3 [H4 [H5 [H6 [H7 [H8 H9]]]]]]]]]]]]]]].
    destruct (tee_demo_try_success (REDPILL_API_KEY env) upstream cr sr cd rid sd body id
                Hkey H1 H2 H3 H4 H5 H6 H7 H8 H9)
      as [trace [_ Hrun]].
    rewrite (tee_demo_handler_returns env upstream request trace _ Hrun). reflexivity.
Qed.

Lemma answers_200_exactly_when_witness :
  snd (tee_demo_handler Sample.env_with_key (Sample.upstream_with_chat
                                               Faults.chat_body_with_usage)
         Sample.request)
  = inr (res_json
           (Faults.built
              (success_body Faults.chat_body_with_usage Sample.signature_body))).
Proof.
  apply (proj2 (answers_200_exactly_when
                  Sample.env_with_key (Sample.upstream_with_chat Faults.chat_body_with_usage)
                  Sample.request _)).
  exists (mkFetchResponse 200 "OK" (inr "") (inr Faults.chat_body_with_usage)),
         Faults.chat_body_with_usage, (JsString "req-6"), "req-6",
         Sample.signature_response_ok, Sample.signature_body.
  repeat (split; [reflexivity |]). reflexivity.
Defined.

(** X8.  A 200 answer hands the upstream members through unchanged:
    chat.request_id, chat.model and chat.usage are the [id], [model] and
    [usage] of the chat body; tee_verification.request_id, .signature and
    .payload are the [request_id], [signature] and [payload] of the
    signature body.  A member the upstream object does not have is absent
    from the answer as well. *)
Theorem answer_forwards_upstream_members {Num : JsNumbers}
    (env : ProcessEnv) (upstream : Upstream) (request : HttpRequest)
    (trace : list Event) (response : HttpResponse) :
  tee_demo_handler env upstream request = (trace, inr response) ->
  response_status response = 200%N ->
  exists chatResponse chatData id signatureResponse signatureData,
    upstream (chat_request (REDPILL_API_KEY env)) = inr chatResponse /\
    json chatResponse = inr chatData /\
    upstream (signature_request (REDPILL_API_KEY env)
                (signature_url_prefix ++ id ++ signature_url_suffix))
      = inr signatureResponse /\
    json signatureResponse = inr signatureData /\
    (forall fields,
        chatData = JsObject fields ->
        json_path ["chat"; "request_id"] (response_body response)
          = json_member "id" chatData /\
        json_path ["chat"; "model"] (response_body response)
          = json_member "model" chatData /\
        json_path ["chat"; "usage"] (response_body response)
          = json_member "usage" chatData) /\
    (forall fields,
        signatureData = JsObject fields ->
        json_path ["tee_verification"; "request_id"] (response_body response)
          = json_member "request_id" signatureData /\
        json_path ["tee_verification"; "signature"] (response_body response)
          = json_member "signature" signatureData /\
        json_path ["tee_verification"; "payload"] (response_body response)
          = json_member "payload" signatureData).
Proof.
  intros Hrun Hstatus.
  destruct (tee_demo_handler_outcome env upstream request)
    as [trace' [response' [Hrun' [[Hstatus' _] | [_ Hok]]]]];
    rewrite Hrun in Hrun'; injection Hrun' as <- <-.
  - rewrite Hstatus in Hstatus'. discriminate Hstatus'.
  - destruct Hok as [cr [cd [rid [id [sr [sd [_ [Hchat [_ [Hjson [_ [_ [Hsig [_ [Hjson' Hbody]]]]]]]]]]]]]]].
    destruct (success_body_shape cd sd (response_body response) Hbody)
      as [chat_id [chat_model [content [usage [sig_id [signature [payload [len
         [Hid [Hmodel [_ [Husage [Hsigid [Hsignature [Hpayload [_ Hshape]]]]]]]]]]]]]]]].
    exists cr, cd, id, sr, sd.
    repeat (split; [assumption |]).
    rewrite Hshape. split.
    + intros fields ->.
      rewrite <- (forwarded_member fields "id" chat_id Hid),
              <- (forwarded_member fields "model" chat_model Hmodel),
              <- (forwarded_member fields "usage" usage Husage).
      repeat split; [destruct chat_id | destruct chat_model | destruct usage]; reflexivity.
    + intros fields ->.
      rewrite <- (forwarded_member fields "request_id" sig_id Hsigid),
              <- (forwarded_member fields "signature" signature Hsignature),
              <- (forwarded_member fields "payload" payload Hpayload).
      repeat split; [destruct sig_id | destruct signature | destruct payload]; reflexivity.
Qed.

Lemma answer_forwards_upstream_members_witness :
  response_status
    (Sample.answer
       (tee_demo_handler Sample.env_with_key
          (Sample.upstream_with_chat Faults.chat_body_with_usage) Sample.request))
  = 200%N /\
  json_path ["chat"; "usage"]
    (response_body
       (Sample.answer
          (tee_demo_handler Sample.env_with_key
             (Sample.upstream_with_chat Faults.chat_body_with_usage) Sample.request)))
  = json_member "usage" Faults.chat_body_with_usage /\
  json_path ["chat"; "usage"; "total_tokens"]
    (response_body
       (Sample.answer
          (tee_demo_handler Sample.env_with_key
             (Sample.upstream_with_chat Faults.chat_body_with_usage) Sample.request)))
  = Some (@JsNumber IntegerNumbers 12%Z) /\
  json_path ["tee_verification"; "signature"]
    (response_body
       (Sample.answer
          (tee_demo_handler Sample.env_with_key
             (Sample.upstream_with_chat Faults.chat_body_with_usage) Sample.request)))
  = None.
Proof.
  split; [reflexivity |].
  destruct (answer_forwards_upstream_members
              Sample.env_with_key (Sample.upstream_with_chat Faults.chat_body_with_usage)
              Sample.request _ _ eq_refl eq_refl)
    as [cr [cd [id [sr [sd [Hchat [Hjson [Hsig [Hjson' [Hcd Hsd]]]]]]]]]].
  injection Hchat as <-. injection Hjson as <-.
  injection Hsig as <-. injection Hjson' as <-.
  split; [exact (proj2 (proj2 (Hcd _ eq_refl))) |].
  split; [reflexivity |].
  exact (eq_trans (proj1 (proj2 (Hsd _ eq_refl))) eq_refl).
Defined.

(** X9.  A 200 answer never contains the certificate chain itself, nor the
    signature body's [model]: under tee_verification there is no
    [cert_chain] and no [model] member, whatever the upstream sent. *)
Theorem answer_withholds_certificate_chain {Num : JsNumbers}
    (env : ProcessEnv) (upstream : Upstream) (request : HttpRequest)
    (trace : list Event) (response : HttpResponse) :
  tee_demo_handler env upstream request = (trace, inr response) ->
  response_status response = 200%N ->
  json_path ["tee_verification"; "cert_chain"] (response_body response) = None /\
  json_path ["tee_verification"; "model"] (response_body response) = None /\
  json_path ["cert_chain"] (response_body response) = None.
Proof.
  intros Hrun Hstatus.
  destruct (tee_demo_handler_outcome env upstream request)
    as [trace' [response' [Hrun' [[Hstatus' _] | [_ Hok]]]]];
    rewrite Hrun in Hrun'; injection Hrun' as <- <-.
  - rewrite Hstatus in Hstatus'. discriminate Hstatus'.
  - destruct Hok as [cr [cd [rid [id [sr [sd [_ [_ [_ [_ [_ [_ [_ [_ [_ Hbody]]]]]]]]]]]]]]].
    destruct (success_body_shape cd sd (response_body response) Hbody)
      as [chat_id [chat_model [content [usage [sig_id [signature [payload [len
         [_ [_ [_ [_ [_ [_ [_ [_ Hshape]]]]]]]]]]]]]]]].
    rewrite Hshape. repeat split; reflexivity.
Qed.

Lemma answer_withholds_certificate_chain_witness :
  response_status
    (Sample.answer (tee_demo_handler Sample.env_with_key Sample.upstream_ok Sample.request))
  = 200%N /\
  json_member "cert_chain" Sample.signature_body
  = Some (JsArray [JsString "a"; JsString "b"]) /\
  json_path ["tee_verification"; "cert_chain"]
    (response_body
       (Sample.answer
          (tee_demo_handler Sample.env_with_key Sample.upstream_ok Sample.request)))
  = None.
Proof.
  split; [reflexivity |]. split; [reflexivity |].
  exact (proj1 (answer_withholds_certificate_chain
                  Sample.env_with_key Sample.upstream_ok Sample.request _ _
                  eq_refl eq_refl)).
Defined.

(** ** The extraction of chat.response *)

(** When the extraction returns and when it throws, for any chat body
    whose [choices] can be read. *)
Lemma chat_content_outcomes {Num : JsNumbers}
    (chatData choices : JsValue) :
  Get chatData (PName "choices") = inr choices ->
  ((exists t, chat_content chatData = ([], inl t))
   <->
   (is_nullish choices = true \/
    exists first message,
      Get choices (PIndex 0) = inr first /\
      is_nullish first = false /\
      Get first (PName "message") = inr message /\
      is_nullish message = true))
  /\
  ((exists response, chat_content chatData = ([], inr response))
   <->
   (exists first,
      Get choices (PIndex 0) = inr first /\
      (is_nullish first = true \/
       exists message,
         Get first (PName "message") = inr message /\ is_nullish message = false))).
Proof.
  intros Hchoices. unfold chat_content, bind, lift, ret. rewrite Hchoices.
  cbn [fst snd app].
  destruct (is_nullish choices) eqn:Hnull.
  - destruct (Get_of_nullish choices (PIndex 0) Hnull) as [t Ht]. rewrite Ht. split.
    + split; [intros _; left; reflexivity | intros _; exists t; reflexivity].
    + split; [intros [response H]; discriminate H |].
      intros [first [Hfirst _]]. discriminate Hfirst.
  - destruct (Get_of_value choices (PIndex 0) Hnull) as [first Hfirst]. rewrite Hfirst.
    cbn [fst snd app].
    destruct (is_nullish first) eqn:Hnull1.
    + split.
      * split; [intros [t H]; discriminate H |].
        intros [H | [first' [message [H [Hnot _]]]]]; [discriminate H |].
        injection H as <-. rewrite Hnull1 in Hnot. discriminate Hnot.
      * split; [intros _; exists first; split; [reflexivity | left; exact Hnull1] |].
        intros _. eexists. reflexivity.
    + destruct (Get_of_value first (PName "message") Hnull1) as [message Hmessage].
      rewrite Hmessage. cbn [fst snd app].
      destruct (is_nullish message) eqn:Hnull2.
      * destruct (Get_of_nullish message (PName "content") Hnull2) as [t Ht]. rewrite Ht.
        split.
        -- split; [| intros _; exists t; reflexivity].
           intros _. right. exists first, message. repeat split; assumption.
        -- split; [intros [response H]; discriminate H |].
           intros [first' [H [Hn | [message' [Hm Hnot]]]]]; injection H as <-.
           ++ rewrite Hnull1 in Hn. discriminate Hn.
           ++ rewrite Hmessage in Hm. injection Hm as <-.
              rewrite Hnull2 in Hnot. discriminate Hnot.
      * destruct (Get_of_value message (PName "content") Hnull2) as [content Hcontent].
        rewrite Hcontent. cbn [fst snd app]. split.
        -- split; [intros [t H]; discriminate H |].
           intros [H | [first' [message' [H [_ [Hm Hn]]]]]]; [discriminate H |].
           injection H as <-. rewrite Hmessage in Hm. injection Hm as <-.
           rewrite Hnull2 in Hn. discriminate Hn.
        -- split; [| intros _; eexists; reflexivity].
           intros _. exists first. split; [reflexivity |]. right.
           exists message. split; assumption.
Qed.

(** The extraction throws on a first choice without a message: reading
    [content] of undefined is a TypeError, which the catch block answers
    with the 500. *)
Lemma chat_response_extraction_is_not_total :
  Get Sample.chat_body_no_message (PName "choices") = inr (JsArray [JsObject []]) /\
  chat_content Sample.chat_body_no_message
  = ([], inl (new_TypeError "Cannot read properties of undefined (reading 'content')")) /\
  ~ (exists response, chat_content Sample.chat_body_no_message = ([], inr response)) /\
  snd (tee_demo_handler Sample.env_with_key
         (Sample.upstream_with_chat Sample.chat_body_no_message) Sample.request)
  = inr (res_status_json 500
           (error_body "TEE verification failed"
                       "Cannot read properties of undefined (reading 'content')")).
Proof.
  split; [reflexivity |]. split; [reflexivity |]. split; [| reflexivity].
  intros [response H]. discriminate H.
Qed.

(** C7.  [chat.response] is the first choice's message content.  With an
    empty [choices] array, or a first element that is null or undefined,
    the extraction returns the empty string without throwing; with a first
    choice whose message has no [content] (or a null one) it returns the
    empty string; with a string [content] it returns that string.  It is
    not total: it throws exactly when [choices] is missing or null, or
    when the first choice is there and its [message] is missing or null.
    On choices of the declared shape it never throws.  The value extracted
    is the [chat.response] member of the success body. *)
Theorem chat_response_extraction {Num : JsNumbers} (chatData choices : JsValue) :
  Get chatData (PName "choices") = inr choices ->
  (choices = JsArray [] -> chat_content chatData = ([], inr (JsString "")))
  /\
  (forall first,
      Get choices (PIndex 0) = inr first -> is_nullish first = true ->
      chat_content chatData = ([], inr (JsString "")))
  /\
  (forall first message content,
      Get choices (PIndex 0) = inr first ->
      Get first (PName "message") = inr message ->
      Get message (PName "content") = inr content ->
      is_nullish content = true ->
      chat_content chatData = ([], inr (JsString "")))
  /\
  (forall first message content,
      Get choices (PIndex 0) = inr first ->
      Get first (PName "message") = inr message ->
      Get message (PName "content") = inr (JsString content) ->
      chat_content chatData = ([], inr (JsString content)))
  /\
  ((exists t, chat_content chatData = ([], inl t))
   <->
   (is_nullish choices = true \/
    exists first message,
      Get choices (PIndex 0) = inr first /\
      is_nullish first = false /\
      Get first (PName "message") = inr message /\
      is_nullish message = true))
  /\
  (forall items,
      choices = JsArray items ->
      forallb conforms_choice items = true ->
      exists content, chat_content chatData = ([], inr (JsString content)))
  /\
  (forall signatureData body,
      success_body chatData signatureData = ([], inr body) ->
      exists response,
        chat_content chatData = ([], inr response) /\
        json_path ["chat"; "response"] body = Some response).
Proof.
  intros Hchoices.
  assert (Hrun : forall first,
             Get choices (PIndex 0) = inr first ->
             chat_content chatData
             = bind (if is_nullish first then ret JsUndefined
                     else bind (lift (Get first (PName "message")))
                            (fun message => lift (Get message (PName "content"))))
                    (fun content => ret (js_or content (JsString "")))).
  { intros first Hfirst. unfold chat_content at 1.
    unfold bind at 1, lift at 1. rewrite Hchoices.
    unfold bind at 1, lift at 1. rewrite Hfirst.
    destruct (bind _ _) as [tr r]. reflexivity. }
  repeat split.
  - intros ->. rewrite (Hrun JsUndefined eq_refl). reflexivity.
  - intros first Hfirst Hnull. rewrite (Hrun first Hfirst), Hnull. reflexivity.
  - intros first message content Hfirst Hmessage Hcontent Hnull.
    rewrite (Hrun first Hfirst),
            (Get_value_is_not_nullish first message (PName "message") Hmessage).
    unfold bind, lift, ret. rewrite Hmessage, Hcontent. cbn [fst snd app].
    destruct content; try discriminate Hnull; reflexivity.
  - intros first message content Hfirst Hmessage Hcontent.
    rewrite (Hrun first Hfirst),
            (Get_value_is_not_nullish first message (PName "message") Hmessage).
    unfold bind, lift, ret. rewrite Hmessage, Hcontent. cbn [fst snd app].
    unfold js_or. cbn [truthy]. destruct content; reflexivity.
  - exact (proj1 (proj1 (chat_content_outcomes chatData choices Hchoices))).
  - exact (proj2 (proj1 (chat_content_outcomes chatData choices Hchoices))).
  - intros items -> Hshape.
    destruct items as [| first rest].
    + exists "". rewrite (Hrun JsUndefined eq_refl). reflexivity.
    + rewrite (Hrun first eq_refl).
      cbn [forallb] in Hshape. apply andb_prop in Hshape. destruct Hshape as [Hfirst _].
      destruct first as [| | | | | | fields]; try discriminate Hfirst.
      cbn [conforms_choice] in Hfirst. unfold bind, lift, ret.
      cbn [Get key_text is_nullish fst snd app].
      destruct (own_property "message" fields) as [message |]; [| discriminate Hfirst].
      destruct message as [| | | | | | inner]; try discriminate Hfirst.
      cbn [conforms_message] in Hfirst.
      cbn [Get key_text fst snd app].
      destruct (own_property "role" inner) as [[] |]; try discriminate Hfirst.
      destruct (own_property "content" inner) as [[| | | | content | |] |];
        try discriminate Hfirst.
      exists content. cbn [fst snd app]. unfold js_or. cbn [truthy].
      destruct content; reflexivity.
  - intros signatureData body Hbody.
    destruct (success_body_members chatData signatureData body Hbody)
      as [response [len [Hc [_ [Hpath _]]]]].
    exists response. split; assumption.
Qed.

Lemma chat_response_extraction_witness :
  (Get Sample.chat_body_no_choices (PName "choices") = inr (JsArray []) /\
   chat_content Sample.chat_body_no_choices = ([], inr (JsString "")))
  /\
  (Get Sample.chat_body_no_content (PName "choices")
     = inr (JsArray [JsObject [("message", JsObject [("role", JsString "assistant")])]]) /\
   chat_content Sample.chat_body_no_content = ([], inr (JsString "")))
  /\
  (Get Sample.chat_body (PName "choices")
     = inr (JsArray [JsObject [("message",
                                JsObject [("role", JsString "assistant");
                                          ("content", JsString "hi")])]]) /\
   chat_content Sample.chat_body = ([], inr (JsString "hi")))
  /\
  (Get Faults.chat_body_without_choices (PName "choices") = inr JsUndefined /\
   exists t, chat_content Faults.chat_body_without_choices = ([], inl t))
  /\
  (forallb (@conforms_choice IntegerNumbers)
     [JsObject [("message",
                 JsObject [("role", JsString "assistant"); ("content", JsString "hi")])]]
     = true /\
   exists content, chat_content Sample.chat_body = ([], inr (JsString content))).
Proof.
  split; [| split; [| split; [| split]]].
  - split; [reflexivity |].
    exact (proj1 (chat_response_extraction Sample.chat_body_no_choices _ eq_refl) eq_refl).
  - split; [reflexivity |].
    exact (proj1 (proj2 (proj2
             (chat_response_extraction Sample.chat_body_no_content _ eq_refl)))
             _ (JsObject [("role", JsString "assistant")]) JsUndefined
             eq_refl eq_refl eq_refl eq_refl).
  - split; [reflexivity |].
    exact (proj1 (proj2 (proj2 (proj2
             (chat_response_extraction Sample.chat_body _ eq_refl))))
             _ _ "hi" eq_refl eq_refl eq_refl).
  - split; [reflexivity |].
    apply (proj2 (proj1 (proj2 (proj2 (proj2 (proj2
             (chat_response_extraction Faults.chat_body_without_choices _ eq_refl))))))).
    left. reflexivity.
  - split; [reflexivity |].
    exact (proj1 (proj2 (proj2 (proj2 (proj2 (proj2
             (chat_response_extraction Sample.chat_body _ eq_refl))))))
             _ eq_refl eq_refl).
Defined.

(** X10.  On a chat body that has properties to read, the extraction
    [chatData.choices[0]?.message.content || ""] throws in exactly two
    situations: [choices] is missing or null, or the first choice is there
    and its [message] is missing or null.  In every other case it returns
    a value. *)
Theorem chat_content_throws_exactly_when {Num : JsNumbers}
    (chatData choices : JsValue) :
  Get chatData (PName "choices") = inr choices ->
  ((exists t, chat_content chatData = ([], inl t))
   <->
   (is_nullish choices = true \/
    exists first message,
      Get choices (PIndex 0) = inr first /\
      is_nullish first = false /\
      Get first (PName "message") = inr message /\
      is_nullish message = true))
  /\
  ((exists response, chat_content chatData = ([], inr response))
   <->
   (exists first,
      Get choices (PIndex 0) = inr first /\
      (is_nullish first = true \/
       exists message,
         Get first (PName "message") = inr message /\ is_nullish message = false))).
Proof.
  exact (chat_content_outcomes chatData choices).
Qed.

Lemma chat_content_throws_exactly_when_witness :
  (Get Sample.chat_body_no_message (PName "choices") = inr (JsArray [JsObject []]) /\
   exists t, chat_content Sample.chat_body_no_message = ([], inl t))
  /\
  (Get Faults.chat_body_without_choices (PName "choices") = inr JsUndefined /\
   exists t, chat_content Faults.chat_body_without_choices = ([], inl t))
  /\
  (Get Sample.chat_body_no_choices (PName "choices") = inr (JsArray []) /\
   exists response, chat_content Sample.chat_body_no_choices = ([], inr response)).
Proof.
  split; [| split].
  - split; [reflexivity |].
    apply (proj2 (proj1 (chat_content_throws_exactly_when
                           Sample.chat_body_no_message _ eq_refl))).
    right. exists (JsObject []), JsUndefined. repeat split.
  - split; [reflexivity |].
    apply (proj2 (proj1 (chat_content_throws_exactly_when
                           Faults.chat_body_without_choices _ eq_refl))).
    left. reflexivity.
  - split; [reflexivity |].
    apply (proj2 (proj2 (chat_content_throws_exactly_when
                           Sample.chat_body_no_choices _ eq_refl))).
    exists JsUndefined. split; [reflexivity | left; reflexivity].
Defined.

(** X11.  A chat body without [choices] is found out late: when both
    upstream calls succeed on such a body, the handler has made both calls
    before building the answer throws, and the client gets the 500 whose
    message is the engine's complaint about reading 0 of undefined. *)
Theorem missing_choices_fails_after_both_calls {Num : JsNumbers}
    (env : ProcessEnv) (upstream : Upstream) (request : HttpRequest)
    (chatResponse signatureResponse : FetchResponse)
    (chatData requestId signatureData : JsValue) (id : string) :
  env_truthy (REDPILL_API_KEY env) = true ->
  upstream (chat_request (REDPILL_API_KEY env)) = inr chatResponse ->
  ok chatResponse = true ->
  json chatResponse = inr chatData ->
  Get chatData (PName "id") = inr requestId ->
  ToString requestId = inr id ->
  upstream (signature_request (REDPILL_API_KEY env)
              (signature_url_prefix ++ id ++ signature_url_suffix))
    = inr signatureResponse ->
  ok signatureResponse = true ->
  json signatureResponse = inr signatureData ->
  Get chatData (PName "choices") = inr JsUndefined ->
  fetches (fst (tee_demo_handler env upstream request))
    = [chat_request (REDPILL_API_KEY env);
       signature_request (REDPILL_API_KEY env)
         (signature_url_prefix ++ id ++ signature_url_suffix)] /\
  snd (tee_demo_handler env upstream request)
    = inr (res_status_json 500
             (error_body "TEE verification failed"
                         "Cannot read properties of undefined (reading '0')")).
Proof.
  intros Hkey Hchat Hok Hjson Hid Hstr Hsig Hok' Hjson' Hchoices.
  destruct (tee_demo_try_signature_stage (REDPILL_API_KEY env) upstream chatResponse
              chatData requestId id
              (new_TypeError "Cannot read properties of undefined (reading '0')")
              Hkey Hchat Hok Hjson Hid Hstr)
    as [trace [Hcalls Hrun]].
  { unfold signature_stage_throws. rewrite Hsig, Hok', Hjson'.
    unfold success_body, chat_content, bind, lift, ret. rewrite Hid.
    destruct (Get_of_value chatData (PName "model")
                (Get_value_is_not_nullish chatData requestId (PName "id") Hid))
      as [model Hmodel].
    rewrite Hmodel, Hchoices. reflexivity. }
  exact (tee_demo_handler_catches env upstream request trace _ _ Hrun Hcalls).
Qed.

Lemma missing_choices_fails_after_both_calls_witness :
  env_truthy (REDPILL_API_KEY Sample.env_with_key) = true /\
  json_member "choices" Faults.chat_body_without_choices = None /\
  map fetch_url
    (fetches (fst (tee_demo_handler Sample.env_with_key
                     (Sample.upstream_with_chat Faults.chat_body_without_choices)
                     Sample.request)))
    = [chat_url; signature_url_prefix ++ "req-5" ++ signature_url_suffix] /\
  snd (tee_demo_handler Sample.env_with_key
         (Sample.upstream_with_chat Faults.chat_body_without_choices) Sample.request)
    = inr (res_status_json 500
             (error_body "TEE verification failed"
                         "Cannot read properties of undefined (reading '0')")).
Proof.
  split; [reflexivity |]. split; [reflexivity |].
  destruct (missing_choices_fails_after_both_calls
              Sample.env_with_key
              (Sample.upstream_with_chat Faults.chat_body_without_choices) Sample.request
              (mkFetchResponse 200 "OK" (inr "") (inr Faults.chat_body_without_choices))
              Sample.signature_response_ok
              Faults.chat_body_without_choices (JsString "req-5") Sample.signature_body
              "req-5"
              eq_refl eq_refl eq_refl eq_refl eq_refl eq_refl eq_refl eq_refl eq_refl eq_refl)
    as [Hcalls Hanswer].
  split; [rewrite Hcalls; reflexivity | exact Hanswer].
Defined.

(** ** What the operator sees *)

(** X12.  A run writes a line at error level exactly when it answers 500:
    the 200 run logs at info and debug level only, and every 500 (missing
    credential, failed stage, anything thrown) leaves an error line. *)
Theorem error_log_exactly_on_500 {Num : JsNumbers}
    (env : ProcessEnv) (upstream : Upstream) (request : HttpRequest) :
  exists trace response,
    tee_demo_handler env upstream request = (trace, inr response) /\
    ((response_status response = 200%N /\ has_error_log trace = false)
     \/
     (response_status response = 500%N /\ has_error_log trace = true)).
Proof.
  unfold tee_demo_handler, try_catch, tee_demo_catch.
  run_cases;
    do 2 eexists; (split; [reflexivity |]);
    first [left; split; reflexivity | right; split; reflexivity].
Qed.

(** X13.  In every 200 answer the object handed to [res.json] has a
    chat.response that is a truthy value or the empty string, and a
    tee_verification.cert_chain_length that is neither null nor undefined;
    neither member is undefined, so neither is left out of the JSON. *)
Theorem answer_always_has_response_and_length {Num : JsNumbers}
    (env : ProcessEnv) (upstream : Upstream) (request : HttpRequest)
    (trace : list Event) (response : HttpResponse) :
  tee_demo_handler env upstream request = (trace, inr response) ->
  response_status response = 200%N ->
  exists content len,
    json_path ["chat"; "response"] (response_body response) = Some content /\
    (truthy content = true \/ content = JsString "") /\
    json_path ["tee_verification"; "cert_chain_length"] (response_body response)
      = Some len /\
    is_nullish len = false.
Proof.
  intros Hrun Hstatus.
  destruct (tee_demo_handler_outcome env upstream request)
    as [trace' [response' [Hrun' [[Hstatus' _] | [_ Hok]]]]];
    rewrite Hrun in Hrun'; injection Hrun' as <- <-.
  - rewrite Hstatus in Hstatus'. discriminate Hstatus'.
  - destruct Hok as [cr [cd [rid [id [sr [sd [_ [_ [_ [_ [_ [_ [_ [_ [_ Hbody]]]]]]]]]]]]]]].
    destruct (success_body_members cd sd (response_body response) Hbody)
      as [content [len [Hcontent [Hlen [Hpath Hpath']]]]].
    exists content, len. split; [exact Hpath |]. split; [| split; [exact Hpath' |]].
    + revert Hcontent. unfold chat_content, bind, lift, ret, js_or.
      repeat (run_step; cbn [fst snd app]); intros H; try discriminate H;
        injection H as <-; auto.
    + revert Hlen. unfold cert_chain_length, bind, lift, ret, js_coalesce.
      repeat (run_step; cbn [fst snd app]); intros H; try discriminate H;
        injection H as <-; auto.
Qed.

Lemma answer_always_has_response_and_length_witness :
  response_status
    (Sample.answer
       (tee_demo_handler Sample.env_with_key
          (Sample.upstream_with_chat Sample.chat_body_no_content) Sample.request))
  = 200%N /\
  exists content len,
    json_path ["chat"; "response"]
      (response_body
         (Sample.answer
            (tee_demo_handler Sample.env_with_key
               (Sample.upstream_with_chat Sample.chat_body_no_content) Sample.request)))
    = Some content /\
    (truthy content = true \/ content = JsString "") /\
    json_path ["tee_verification"; "cert_chain_length"]
      (response_body
         (Sample.answer
            (tee_demo_handler Sample.env_with_key
               (Sample.upstream_with_chat Sample.chat_body_no_content) Sample.request)))
    = Some len /\
    is_nullish len = false.
Proof.
  split; [reflexivity |].
  exact (answer_always_has_response_and_length
           Sample.env_with_key (Sample.upstream_with_chat Sample.chat_body_no_content)
           Sample.request _ _ eq_refl eq_refl).
Defined.

(** ** Start-up, in full *)

(** X14.  Start-up completes exactly when the payee passes [isAddress],
    both [x402Exact] and [createMiddleware] succeed on the script's
    arguments (base-sepolia, USDC, the payee, 10000; the local
    facilitator) and the server gets to listen on its port.  The server
    then has /weather and /tee-demo, in that order, each behind the
    payment middleware.  The port is parseInt(PORT), or 4021 when PORT is
    unset or empty; a port that cannot be listened on ends start-up with
    the failure of [listen]. *)
Theorem startup_completes_exactly_when {Num : JsNumbers}
    (Requirement : Type) (isAddress : option string -> bool)
    (x402Exact : X402ExactArgs -> Thrown + Requirement)
    (createMiddleware : MiddlewareArgs Requirement -> Thrown + Middleware)
    (parseInt : string -> number) (listen : number -> Thrown + unit)
    (env : ProcessEnv) :
  port parseInt env
  = match PORT env with
    | None => number_of_N 4021
    | Some "" => number_of_N 4021
    | Some text => parseInt text
    end
  /\
  (forall requirement middleware,
      isAddress (EVM_RECEIVING_ADDRESS env) = true ->
      x402Exact (mkX402ExactArgs "base-sepolia" "USDC" (EVM_RECEIVING_ADDRESS env) "10000")
        = inr requirement ->
      createMiddleware (mkMiddlewareArgs "http://localhost:4000" [requirement])
        = inr middleware ->
      (listen (port parseInt env) = inr tt ->
       snd (startup isAddress x402Exact createMiddleware parseInt listen env)
       = inr (mkServer
                [weather_route middleware; tee_demo_route env middleware]
                (port parseInt env)))
      /\
      (forall failure,
          listen (port parseInt env) = inl failure ->
          snd (startup isAddress x402Exact createMiddleware parseInt listen env)
          = inl failure))
  /\
  (aborts (startup isAddress x402Exact createMiddleware parseInt listen env) = false ->
   isAddress (EVM_RECEIVING_ADDRESS env) = true /\
   listen (port parseInt env) = inr tt /\
   exists requirement middleware,
     x402Exact (mkX402ExactArgs "base-sepolia" "USDC" (EVM_RECEIVING_ADDRESS env) "10000")
       = inr requirement /\
     createMiddleware (mkMiddlewareArgs "http://localhost:4000" [requirement])
       = inr middleware).
Proof.
  split; [| split].
  - unfold port. destruct (PORT env) as [[| c text] |]; reflexivity.
  - intros requirement middleware Hpayee Hrequirement Hmiddleware.
    unfold startup, run, app_listen, paid_middleware, bind, lift, log, ret, throw.
    rewrite Hpayee, Hrequirement, Hmiddleware. cbn [negb fst snd app]. split.
    + intros Hlisten. rewrite Hlisten.
      destruct (env_truthy (REDPILL_API_KEY env)); reflexivity.
    + intros failure Hlisten. rewrite Hlisten.
      destruct (env_truthy (REDPILL_API_KEY env)); reflexivity.
  - unfold aborts, startup, run, app_listen, paid_middleware, bind, lift, log, ret, throw.
    destruct (isAddress (EVM_RECEIVING_ADDRESS env)); cbn [negb fst snd app];
      [| intros H; discriminate H].
    destruct (x402Exact _) as [t | requirement] eqn:Hrequirement;
      destruct (env_truthy (REDPILL_API_KEY env)); cbn [negb fst snd app];
      try (intros H; discriminate H);
      (destruct (createMiddleware _) as [t | middleware] eqn:Hmiddleware;
       cbn [fst snd app]; [intros H; discriminate H |]);
      (destruct (listen _) as [t | []] eqn:Hlisten;
       cbn [fst snd app]; [intros H; discriminate H |]);
      intros _; (split; [reflexivity |]); (split; [reflexivity |]);
      exists requirement, middleware;
      split; [reflexivity | exact Hmiddleware | reflexivity | exact Hmiddleware].
Qed.

Lemma startup_completes_exactly_when_witness :
  (Sample.isAddress (EVM_RECEIVING_ADDRESS Sample.env_without_key) = true /\
   Sample.listen (port Sample.parseInt Sample.env_without_key) = inr tt /\
   option_map server_port
     (match snd (startup Sample.isAddress Sample.x402Exact Sample.createMiddleware
                   Sample.parseInt Sample.listen Sample.env_without_key) with
      | inr server => Some server
      | inl _ => None
      end)
   = Some 8080%Z)
  /\
  (Sample.listen (port Sample.parseInt Sample.env_with_key) = inr tt /\
   option_map server_port
     (match snd (startup Sample.isAddress Sample.x402Exact Sample.createMiddleware
                   Sample.parseInt Sample.listen Sample.env_with_key) with
      | inr server => Some server
      | inl _ => None
      end)
   = Some 4021%Z)
  /\
  (port Sample.parseInt Faults.env_bad_port = 99999%Z /\
   aborts (startup Sample.isAddress Sample.x402Exact Sample.createMiddleware
             Sample.parseInt Sample.listen Faults.env_bad_port) = true).
Proof.
  split; [| split].
  - split; [reflexivity |]. split; [reflexivity |].
    rewrite (proj1 (proj1 (proj2 (startup_completes_exactly_when PaymentRequirement
                      Sample.isAddress Sample.x402Exact Sample.createMiddleware
                      Sample.parseInt Sample.listen Sample.env_without_key))
                   (mkPaymentRequirement "base-sepolia" "USDC"
                      (Some Sample.payee_address) 10000)
                   (fun r => if Sample.paying r then CallNext
                             else Respond Sample.payment_required)
                   eq_refl eq_refl eq_refl) eq_refl).
    reflexivity.
  - split; [reflexivity |].
    rewrite (proj1 (proj1 (proj2 (startup_completes_exactly_when PaymentRequirement
                      Sample.isAddress Sample.x402Exact Sample.createMiddleware
                      Sample.parseInt Sample.listen Sample.env_with_key))
                   (mkPaymentRequirement "base-sepolia" "USDC"
                      (Some Sample.payee_address) 10000)
                   (fun r => if Sample.paying r then CallNext
                             else Respond Sample.payment_required)
                   eq_refl eq_refl eq_refl) eq_refl).
    reflexivity.
  - split; [reflexivity |]. unfold aborts.
    rewrite (proj2 (proj1 (proj2 (startup_completes_exactly_when PaymentRequirement
                      Sample.isAddress Sample.x402Exact Sample.createMiddleware
                      Sample.parseInt Sample.listen Faults.env_bad_port))
                   (mkPaymentRequirement "base-sepolia" "USDC"
                      (Some Sample.payee_address) 10000)
                   (fun r => if Sample.paying r then CallNext
                             else Respond Sample.payment_required)
                   eq_refl eq_refl eq_refl)
               (ThrownError
                  (mkJsError "RangeError" "options.port should be >= 0 and < 65536"))
               eq_refl).
    reflexivity.
Defined.

(** X15.  Start-up logs at most two lines and has no other effect before
    it serves: the warning about the missing credential, written exactly
    when the payee is valid and REDPILL_API_KEY is unset or empty, and then
    the listening line with the port, written exactly when start-up
    completes.  No outbound call is made at start-up, so the credential is
    not tried against the upstream. *)
Theorem startup_trace_is_warning_then_listening {Num : JsNumbers}
    (Requirement : Type) (isAddress : option string -> bool)
    (x402Exact : X402ExactArgs -> Thrown + Requirement)
    (createMiddleware : MiddlewareArgs Requirement -> Thrown + Middleware)
    (parseInt : string -> number) (listen : number -> Thrown + unit)
    (env : ProcessEnv) :
  fst (startup isAddress x402Exact createMiddleware parseInt listen env)
  = ((if isAddress (EVM_RECEIVING_ADDRESS env) && negb (env_truthy (REDPILL_API_KEY env))
      then [Logged LevelWarn
              "REDPILL_API_KEY not set in environment. The /tee-demo endpoint will not function."
              []]
      else [])
     ++
     (if aborts (startup isAddress x402Exact createMiddleware parseInt listen env)
      then []
      else [Logged LevelInfo
              ("Resource server listening on port " ++ number_to_string (port parseInt env))
              []]))%list
  /\
  fetches (fst (startup isAddress x402Exact createMiddleware parseInt listen env)) = [].
Proof.
  unfold aborts, startup, run, app_listen, paid_middleware, bind, lift, log, ret, throw.
  destruct (isAddress (EVM_RECEIVING_ADDRESS env)); cbn [negb andb fst snd app];
    [| split; reflexivity].
  destruct (env_truthy (REDPILL_API_KEY env)); cbn [negb fst snd app];
    (destruct (x402Exact _) as [t | requirement]; cbn [fst snd app];
     [split; reflexivity |]);
    (destruct (createMiddleware _) as [t | middleware]; cbn [fst snd app];
     [split; reflexivity |]);
    (destruct (listen _) as [t | []]; split; reflexivity).
Qed.

(** ** An id that is not a string *)

(** X16.  Nothing checks that the chat body has an [id].  When it is
    missing the run goes on and asks the signature endpoint for the path
    segment undefined; when it is null, for null; in general for the
    string rendering of whatever value the body carries. *)
Theorem signature_url_renders_any_id {Num : JsNumbers}
    (env : ProcessEnv) (upstream : Upstream) (request : HttpRequest)
    (chatResponse : FetchResponse) (chatData requestId : JsValue) (id : string) :
  env_truthy (REDPILL_API_KEY env) = true ->
  upstream (chat_request (REDPILL_API_KEY env)) = inr chatResponse ->
  ok chatResponse = true ->
  json chatResponse = inr chatData ->
  Get chatData (PName "id") = inr requestId ->
  ToString requestId = inr id ->
  fetches (fst (tee_demo_handler env upstream request))
    = [chat_request (REDPILL_API_KEY env);
       signature_request (REDPILL_API_KEY env)
         (signature_url_prefix ++ id ++ signature_url_suffix)]
  /\
  (requestId = JsUndefined -> id = "undefined")
  /\
  (requestId = JsNull -> id = "null").
Proof.
  intros Hkey Hchat Hok Hjson Hid Hstr. split; [| split].
  - rewrite tee_demo_handler_fetches.
    exact (signature_url_of_request_id (REDPILL_API_KEY env) upstream chatResponse
             chatData requestId id Hkey Hchat Hok Hjson Hid Hstr).
  - intros ->. injection Hstr as <-. reflexivity.
  - intros ->. injection Hstr as <-. reflexivity.
Qed.

Lemma signature_url_renders_any_id_witness :
  env_truthy (REDPILL_API_KEY Sample.env_with_key) = true /\
  json_member "id" Sample.chat_body_no_id = None /\
  Get Sample.chat_body_no_id (PName "id") = inr JsUndefined /\
  map fetch_url
    (fetches (fst (tee_demo_handler Sample.env_with_key
                     (Sample.upstream_with_chat Sample.chat_body_no_id) Sample.request)))
  = [ "https://api.redpill.ai/v1/chat/completions";
      "https://api.redpill.ai/v1/signature/undefined?model=phala/qwen-2.5-7b-instruct&signing_algo=ecdsa" ].
Proof.
  repeat (split; [reflexivity |]).
  rewrite (proj1 (signature_url_renders_any_id
                    Sample.env_with_key (Sample.upstream_with_chat Sample.chat_body_no_id)
                    Sample.request
                    (mkFetchResponse 200 "OK" (inr "") (inr Sample.chat_body_no_id))
                    Sample.chat_body_no_id JsUndefined "undefined"
                    eq_refl eq_refl eq_refl eq_refl eq_refl eq_refl)).
  reflexivity.
Defined.
